(** * Starfield: the per-frame particle simulation of [starfield/app.py]

    A shallow embedding of the [Star] helper class and of the [Starfield]
    widget: the index and vertex arrays built by [Starfield.__init__], the
    randomised [Star.reset], the vertex refresh [Star.update] and the motion
    loop [Starfield.update_glsl].

    Conventions of the embedding.
    - Python floats are idealised as real numbers ([R]); [math.cos],
      [math.sin] and [math.pi] are [cos], [sin] and [PI].  Rounding is not
      modelled there.  Where rounding decides a bound, the arithmetic of
      [Star.reset] is also given on binary64 values ([Binary64]).
    - Python lists are Rocq lists; array positions and the non-negative
      integers stored in the index array are [nat].
    - [Star] objects live in a store, the list [stars] of the world; a
      reference to a star is its position in that store.  The vertex array
      [sf.vertices] that every star aliases is the single [vertices] field
      of the world.
    - [random()] reads a process-global source: the world carries the
      sequence of its draws [rand] and the number [rpos] of draws consumed.
    - The widget's [center] is read from Kivy at every frame: it is an
      input of [update_glsl].  The canvas, the shader and the texture are
      outside the model. *)

From Stdlib Require Import String Reals Lra Lia Arith Bool List.
From Stdlib Require PrimFloat.
Import ListNotations.

(** ** Python list primitives *)

Module Py.

(** [range(start, stop, step)] for a positive [step] (Python raises
    [ValueError] for [step = 0]; the model gives the empty list). *)
Definition range3 (start stop step : nat) : list nat :=
  map (fun k => start + k * step) (seq 0 ((stop - start + (step - 1)) / step)).

(** [range(n)]. *)
Definition range (n : nat) : list nat := seq 0 n.

(** Slice assignment [l[i:j] = vals] for [0 <= i <= j]: both bounds are
    clipped to the length of [l], as [firstn] and [skipn] do. *)
Definition set_slice {A : Type} (i j : nat) (vals l : list A) : list A :=
  firstn i l ++ vals ++ skipn j l.

(** [l.extend(vals)]. *)
Definition extend {A : Type} (l vals : list A) : list A := l ++ vals.

(** [a > b] on floats. *)
Definition gtb (a b : R) : bool := if Rlt_dec b a then true else false.

(** [max(a, b)]: the first argument unless the second is larger. *)
Definition max (a b : R) : R := if Rlt_dec a b then b else a.

(** In-place update of the object stored at position [n]. *)
Fixpoint upd_nth {A : Type} (n : nat) (f : A -> A) (l : list A) : list A :=
  match l, n with
  | [], _ => []
  | x :: l', O => f x :: l'
  | x :: l', S n' => x :: upd_nth n' f l'
  end.

End Py.

(** ** Data model *)

Local Open Scope R_scope.

Definition NSTARS : nat := 1000.

Record Star : Type := mkStar {
  base_idx : nat;
  angle : R;
  distance : R;
  size : R
}.

(** The class attributes of [Star], the values of a star before its first
    [reset]. *)
Definition Star_defaults (b : nat) : Star :=
  {| base_idx := b; angle := 0; distance := 0; size := 0.1 |}.

Record World : Type := mkWorld {
  vsize : nat;
  indices : list nat;
  vertices : list R;
  stars : list Star;
  rand : nat -> R;
  rpos : nat
}.

(** The vertex format of the widget. *)
Definition vfmt : list (string * nat * string) :=
  [ ("vCenter"%string, 2%nat, "float"%string);
    ("vScale"%string, 1%nat, "float"%string);
    ("vPosition"%string, 2%nat, "float"%string);
    ("vTexCoords0"%string, 2%nat, "float"%string) ].

Definition set_vertices (v : list R) (w : World) : World :=
  {| vsize := vsize w; indices := indices w; vertices := v;
     stars := stars w; rand := rand w; rpos := rpos w |}.

Definition set_stars (s : list Star) (w : World) : World :=
  {| vsize := vsize w; indices := indices w; vertices := vertices w;
     stars := s; rand := rand w; rpos := rpos w |}.

Definition set_angle (a : R) (s : Star) : Star :=
  {| base_idx := base_idx s; angle := a; distance := distance s; size := size s |}.

Definition set_distance (d : R) (s : Star) : Star :=
  {| base_idx := base_idx s; angle := angle s; distance := d; size := size s |}.

Definition set_size (z : R) (s : Star) : Star :=
  {| base_idx := base_idx s; angle := angle s; distance := distance s; size := z |}.

(** The star a reference points to. *)
Definition star_at (r : nat) (w : World) : Star :=
  nth r (stars w) (Star_defaults 0).

(** Attribute assignment on the star referenced by [r]. *)
Definition upd_star (r : nat) (f : Star -> Star) (w : World) : World :=
  set_stars (Py.upd_nth r f (stars w)) w.

(** [random()]: the next draw of the global source. *)
Definition random (w : World) : R * World :=
  (rand w (rpos w),
   {| vsize := vsize w; indices := indices w; vertices := vertices w;
      stars := stars w; rand := rand w; rpos := S (rpos w) |}).

(** ** The [Star] class *)

(** [Star.reset]. *)
Definition Star_reset (r : nat) (w : World) : World :=
  let (u, w) := random w in
  let w := upd_star r (set_angle (2 * PI * u)) w in
  let (u, w) := random w in
  let w := upd_star r (set_distance (90 * u + 10)) w in
  let (u, w) := random w in
  upd_star r (set_size (0.05 * u + 0.05)) w.

(** [Star.__init__(sf, i)]: the new object is allocated at the end of the
    store and reset. *)
Definition Star_init (i : nat) (w : World) : World :=
  let r := length (stars w) in
  let w := set_stars (stars w ++ [Star_defaults (4 * i * vsize w)]) w in
  Star_reset r w.

(** [Star.iterate]. *)
Definition Star_iterate (r : nat) (w : World) : list nat :=
  let b := base_idx (star_at r w) in
  Py.range3 b (b + 4 * vsize w) (vsize w).

(** [Star.update(x0, y0)]. *)
Definition Star_update (r : nat) (x0 y0 : R) (w : World) : World :=
  let x := x0 + distance (star_at r w) * cos (angle (star_at r w)) in
  let y := y0 + distance (star_at r w) * sin (angle (star_at r w)) in
  fold_left
    (fun w i =>
       set_vertices
         (Py.set_slice i (i + 3) [x; y; size (star_at r w)] (vertices w)) w)
    (Star_iterate r w) w.

(** ** The [Starfield] widget *)

(** The seven indices appended for the quad whose first vertex is [i]. *)
Definition quad_indices (i : nat) : list nat :=
  [i; i + 1; i + 2; i + 2; i + 2; i + 3; i]%nat.

(** The four vertices appended for one star. *)
Definition quad_vertices : list R :=
  [ 0; 0; 1; -24; -24; 0; 1;
    0; 0; 1; 24; -24; 1; 1;
    0; 0; 1; 24; 24; 1; 0;
    0; 0; 1; -24; 24; 0; 0 ].

(** [Starfield.__init__] for [n] stars ([NSTARS] in the source), with the
    global random source in the state [rnd] and no draw consumed yet. *)
Definition Starfield_init (n : nat) (rnd : nat -> R) : World :=
  let vs := list_sum (map (fun attr => snd (fst attr)) vfmt) in
  let ind :=
    fold_left (fun acc i => Py.extend acc (quad_indices i))
              (Py.range3 0 (4 * n) 4) [] in
  let vert :=
    fold_left (fun acc _ => Py.extend acc quad_vertices) (Py.range n) [] in
  let w := {| vsize := vs; indices := ind; vertices := vert;
              stars := []; rand := rnd; rpos := 0 |} in
  fold_left (fun w i => Star_init i w) (Py.range n) w.

(** The body of the loop of [update_glsl] for the star referenced by [r]. *)
Definition star_frame (x0 y0 max_distance nap : R) (r : nat) (w : World) : World :=
  let w := upd_star r (fun s => set_distance (distance s * (2 * nap + 1)) s) w in
  let w := upd_star r (fun s => set_size (size s + 0.25 * nap) s) w in
  if Py.gtb (distance (star_at r w)) max_distance
  then Star_reset r w
  else Star_update r x0 y0 w.

(** [Starfield.update_glsl(nap)], with the widget's [center] as input. *)
Definition update_glsl (center : R * R) (nap : R) (w : World) : World :=
  let (x0, y0) := center in
  let max_distance := 1.1 * Py.max x0 y0 in
  fold_left (fun w r => star_frame x0 y0 max_distance nap r w)
            (seq 0 (length (stars w))) w.

(** A frame is the centre sampled at a tick and the elapsed time. *)
Definition Frame : Type := ((R * R) * R)%type.

(** The widget driven through a sequence of ticks by the clock. *)
Definition run (fs : list Frame) (w : World) : World :=
  fold_left (fun w f => update_glsl (fst f) (snd f) w) fs w.

(** [StarfieldApp.build]. *)
Definition StarfieldApp_build (rnd : nat -> R) : World :=
  Starfield_init NSTARS rnd.

(** ** Observations used by the statements *)

(** [vertices[j]]. *)
Definition vertex_at (j : nat) (w : World) : R := nth j (vertices w) 0.

(** [vertices[i:i + 3]] read as a triple. *)
Definition slot_triple (i : nat) (w : World) : R * R * R :=
  (vertex_at i w, vertex_at (i + 1) w, vertex_at (i + 2) w).

(** The four static scalars [vertices[i + 3:i + 7]] of the vertex that
    starts at [i]. *)
Definition static_attrs (i : nat) (w : World) : list R :=
  [vertex_at (i + 3) w; vertex_at (i + 4) w;
   vertex_at (i + 5) w; vertex_at (i + 6) w].

(** The threshold of a frame. *)
Definition max_distance_of (center : R * R) : R :=
  1.1 * Py.max (fst center) (snd center).

(** The distance of a star once line 128 has run. *)
Definition grown_distance (nap : R) (s : Star) : R :=
  distance s * (2 * nap + 1).

(** The size of a star once line 129 has run. *)
Definition grown_size (nap : R) (s : Star) : R :=
  size s + 0.25 * nap.

(** The star referenced by [r] takes the [reset] branch of a frame. *)
Definition resets (center : R * R) (nap : R) (r : nat) (w : World) : Prop :=
  max_distance_of center < grown_distance nap (star_at r w).


(** The layout that construction establishes and every frame keeps. *)
Definition wf (w : World) : Prop :=
  vsize w = 7%nat /\
  length (vertices w) = (4 * length (stars w) * vsize w)%nat /\
  forall r, (r < length (stars w))%nat ->
            base_idx (star_at r w) = (4 * r * vsize w)%nat.

(** Every draw of the random source lies in [[0, 1)]. *)
Definition unit_draws (rnd : nat -> R) : Prop :=
  forall n, 0 <= rnd n < 1.

(** The star that [reset] leaves when its first draw is number [k]. *)
Definition redrawn (rnd : nat -> R) (k b : nat) : Star :=
  {| base_idx := b;
     angle := 2 * PI * rnd k;
     distance := 90 * rnd (S k) + 10;
     size := 0.05 * rnd (S (S k)) + 0.05 |}.

(** The star that a frame leaves when it is not reset. *)
Definition grown (nap : R) (s : Star) : Star :=
  {| base_idx := base_idx s;
     angle := angle s;
     distance := grown_distance nap s;
     size := grown_size nap s |}.

(** The screen-space centre computed by lines 63 and 64. *)
Definition center_of (x0 y0 : R) (s : Star) : R * R :=
  (x0 + distance s * cos (angle s), y0 + distance s * sin (angle s)).

(** What a frame does to the star referenced by [r] and to its vertices. *)
Definition frame_post (x0 y0 nap : R) (w w' : World) (r : nat) : Prop :=
  let s := star_at r w in
  (1.1 * Py.max x0 y0 < grown_distance nap s ->
     (exists k, (rpos w <= k)%nat /\ (k + 3 <= rpos w')%nat /\
                star_at r w' = redrawn (rand w) k (base_idx s)) /\
     (forall j, (28 * r <= j < 28 * r + 28)%nat ->
                vertex_at j w' = vertex_at j w)) /\
  (grown_distance nap s <= 1.1 * Py.max x0 y0 ->
     star_at r w' = grown nap s /\
     (forall k o, (k < 4)%nat -> (o < 7)%nat ->
        vertex_at (28 * r + 7 * k + o) w' =
        if (o <? 3)%nat
        then nth o [x0 + grown_distance nap s * cos (angle s);
                    y0 + grown_distance nap s * sin (angle s);
                    grown_size nap s] 0
        else vertex_at (28 * r + 7 * k + o) w)).

(** A test fixture: the attributes of the star referenced by [r] are
    assigned from outside ([star.angle = a] and so on). *)
Definition force_star (r : nat) (a d z : R) (w : World) : World :=
  upd_star r (set_size z)
    (upd_star r (set_distance d) (upd_star r (set_angle a) w)).

(** The corner offset and the texture coordinates of the four vertices of
    a quad, in vertex order. *)
Definition corner_attrs : list (list R) :=
  [ [-24; -24; 0; 1]; [24; -24; 1; 1]; [24; 24; 1; 0]; [-24; 24; 0; 0] ].

(** What no method of the program changes: the stride, the index array,
    the draws of the random source (only consumed), the number of stars and
    of vertices, the base index of every star, and the four static scalars
    of every vertex. *)
Definition keeps (w w' : World) : Prop :=
  vsize w' = vsize w /\
  indices w' = indices w /\
  rand w' = rand w /\
  (rpos w <= rpos w')%nat /\
  length (stars w') = length (stars w) /\
  length (vertices w') = length (vertices w) /\
  (forall q, base_idx (star_at q w') = base_idx (star_at q w)) /\
  (forall v o, (3 <= o < 7)%nat ->
               vertex_at (7 * v + o) w' = vertex_at (7 * v + o) w).

(** A star and the 28 scalars of its quad are the same in two worlds. *)
Definition same_at (r : nat) (w w' : World) : Prop :=
  star_at r w' = star_at r w /\
  forall j, (28 * r <= j < 28 * r + 28)%nat -> vertex_at j w' = vertex_at j w.

(** ** Observations on runs of frames *)

(** The test of line 131 for the star referenced by [r], read on the world
    the frame starts from. *)
Definition resetb (center : R * R) (nap : R) (r : nat) (w : World) : bool :=
  Py.gtb (grown_distance nap (star_at r w)) (max_distance_of center).

(** How many of the stars referenced by [rs] a frame resets. *)
Definition reset_count (center : R * R) (nap : R) (w : World)
    (rs : list nat) : nat :=
  length (filter (fun q => resetb center nap q w) rs).




(** No frame of a run has a negative elapsed time. *)
Definition nonneg_naps (fs : list Frame) : Prop :=
  Forall (fun f : Frame => 0 <= snd f) fs.

(** The ranges [reset] draws from, as far as growth keeps them. *)
Definition star_ok (s : Star) : Prop :=
  0 <= angle s < 2 * PI /\ 10 <= distance s /\ 0.05 <= size s.

(** ** [Star.reset] on binary64 values *)

Module Binary64.

Import PrimFloat.

#[local] Set Warnings "-inexact-float".

(** [math.pi]. *)
Definition pi : float := 3.141592653589793%float.

(** The three assignments of [Star.reset] (lines 48 to 50) with the
    arithmetic of Python floats, for the three values [u1], [u2], [u3] that
    the calls of [random()] return: the new angle, distance and size. *)
Definition Star_reset (u1 u2 u3 : float) : float * float * float :=
  (2 * pi * u1, 90 * u2 + 10, 0.05 * u3 + 0.05)%float.



End Binary64.

(** ** Lists *)

Section ListFacts.

Context {A : Type}.

Lemma length_upd_nth (n : nat) (f : A -> A) (l : list A) :
  length (Py.upd_nth n f l) = length l.
Proof.
  revert n; induction l as [|x l IH]; intros [|n]; simpl; auto.
Qed.

Lemma nth_upd_nth_eq (n : nat) (f : A -> A) (l : list A) (d : A) :
  (n < length l)%nat -> nth n (Py.upd_nth n f l) d = f (nth n l d).
Proof.
  revert n; induction l as [|x l IH]; intros [|n] H; simpl in *;
    try lia; auto.
  apply IH; lia.
Qed.

Lemma nth_upd_nth_neq (n m : nat) (f : A -> A) (l : list A) (d : A) :
  n <> m -> nth m (Py.upd_nth n f l) d = nth m l d.
Proof.
  revert n m; induction l as [|x l IH]; intros [|n] [|m] H; simpl;
    try congruence; auto.
Qed.

Lemma length_set_slice (i : nat) (vals l : list A) :
  (i + length vals <= length l)%nat ->
  length (Py.set_slice i (i + length vals) vals l) = length l.
Proof.
  intros H. unfold Py.set_slice.
  rewrite !length_app, length_firstn, length_skipn. lia.
Qed.

Lemma nth_set_slice (i j : nat) (vals l : list A) (d : A) :
  (i + length vals <= length l)%nat ->
  nth j (Py.set_slice i (i + length vals) vals l) d =
  if (j <? i)%nat then nth j l d
  else if (j <? i + length vals)%nat then nth (j - i) vals d
  else nth j l d.
Proof.
  intros H. unfold Py.set_slice.
  assert (Hf : length (firstn i l) = i) by (rewrite length_firstn; lia).
  destruct (Nat.ltb_spec j i) as [Hj|Hj].
  - rewrite app_nth1 by lia. rewrite nth_firstn.
    destruct (Nat.ltb_spec j i); [reflexivity | lia].
  - rewrite app_nth2 by lia. rewrite Hf.
    destruct (Nat.ltb_spec j (i + length vals)) as [Hk|Hk].
    + rewrite app_nth1 by lia. reflexivity.
    + rewrite app_nth2 by lia. rewrite nth_skipn. f_equal. lia.
Qed.

Lemma length_set_slice3 (i : nat) (vals l : list A) :
  length vals = 3%nat -> (i + 3 <= length l)%nat ->
  length (Py.set_slice i (i + 3) vals l) = length l.
Proof.
  intros Hv H. rewrite <- Hv. apply length_set_slice. lia.
Qed.

Lemma nth_set_slice3 (i j : nat) (vals l : list A) (d : A) :
  length vals = 3%nat -> (i + 3 <= length l)%nat ->
  nth j (Py.set_slice i (i + 3) vals l) d =
  if (j <? i)%nat then nth j l d
  else if (j <? i + 3)%nat then nth (j - i) vals d
  else nth j l d.
Proof.
  intros Hv H. rewrite <- Hv. apply nth_set_slice. lia.
Qed.

End ListFacts.

(** ** The random source and attribute assignment *)

Lemma star_at_upd_star_eq (r : nat) (f : Star -> Star) (w : World) :
  (r < length (stars w))%nat ->
  star_at r (upd_star r f w) = f (star_at r w).
Proof. intros H. unfold star_at, upd_star. simpl. now apply nth_upd_nth_eq. Qed.

Lemma star_at_upd_star_neq (r q : nat) (f : Star -> Star) (w : World) :
  r <> q -> star_at q (upd_star r f w) = star_at q w.
Proof. intros H. unfold star_at, upd_star. simpl. now apply nth_upd_nth_neq. Qed.

Lemma length_stars_upd_star (r : nat) (f : Star -> Star) (w : World) :
  length (stars (upd_star r f w)) = length (stars w).
Proof. unfold upd_star. simpl. apply length_upd_nth. Qed.

(** ** [Star.reset] *)

Lemma Star_reset_frame (r : nat) (w : World) :
  vsize (Star_reset r w) = vsize w /\
  indices (Star_reset r w) = indices w /\
  vertices (Star_reset r w) = vertices w /\
  rand (Star_reset r w) = rand w /\
  rpos (Star_reset r w) = (rpos w + 3)%nat /\
  length (stars (Star_reset r w)) = length (stars w) /\
  forall q, q <> r -> star_at q (Star_reset r w) = star_at q w.
Proof.
  unfold Star_reset, random, upd_star, set_stars, star_at.
  cbn [vsize indices vertices stars rand rpos].
  repeat split; try reflexivity.
  - lia.
  - rewrite !length_upd_nth. reflexivity.
  - intros q Hq.
    rewrite !nth_upd_nth_neq by congruence. reflexivity.
Qed.

Lemma Star_reset_star (r : nat) (w : World) :
  (r < length (stars w))%nat ->
  star_at r (Star_reset r w) =
  redrawn (rand w) (rpos w) (base_idx (star_at r w)).
Proof.
  intros H. unfold Star_reset, random, upd_star, set_stars, star_at.
  cbn [vsize indices vertices stars rand rpos].
  rewrite !nth_upd_nth_eq by (rewrite ?length_upd_nth; exact H).
  reflexivity.
Qed.

(** ** [Star.iterate] and [Star.update] *)

Lemma range3_quad (b : nat) :
  Py.range3 b (b + 4 * 7) 7 = [b; b + 7; b + 14; b + 21]%nat.
Proof.
  unfold Py.range3.
  replace (b + 4 * 7 - b + (7 - 1))%nat with 34%nat by lia.
  change (34 / 7)%nat with 4%nat. simpl.
  repeat f_equal; lia.
Qed.

Lemma Star_update_frame (r : nat) (x0 y0 : R) (w : World) :
  vsize (Star_update r x0 y0 w) = vsize w /\
  indices (Star_update r x0 y0 w) = indices w /\
  stars (Star_update r x0 y0 w) = stars w /\
  rand (Star_update r x0 y0 w) = rand w /\
  rpos (Star_update r x0 y0 w) = rpos w.
Proof.
  unfold Star_update.
  generalize (Star_iterate r w) as sl.
  generalize (x0 + distance (star_at r w) * cos (angle (star_at r w))) as x.
  generalize (y0 + distance (star_at r w) * sin (angle (star_at r w))) as y.
  intros y x sl.
  assert (G : forall w0 : World,
    let w1 := fold_left (fun w i => set_vertices
      (Py.set_slice i (i + 3) [x; y; size (star_at r w)] (vertices w)) w) sl w0 in
    vsize w1 = vsize w0 /\ indices w1 = indices w0 /\ stars w1 = stars w0 /\
    rand w1 = rand w0 /\ rpos w1 = rpos w0).
  { induction sl as [|i sl IH]; intros w0; simpl.
    - repeat split.
    - destruct (IH (set_vertices
        (Py.set_slice i (i + 3) [x; y; size (star_at r w0)] (vertices w0)) w0))
        as (H1 & H2 & H3 & H4 & H5).
      simpl in *. repeat split; assumption. }
  apply G.
Qed.

Lemma Star_update_vertices (r : nat) (x0 y0 : R) (w : World) :
  vsize w = 7%nat ->
  base_idx (star_at r w) = (28 * r)%nat ->
  (28 * r + 28 <= length (vertices w))%nat ->
  length (vertices (Star_update r x0 y0 w)) = length (vertices w) /\
  forall j,
    vertex_at j (Star_update r x0 y0 w) =
    if ((28 * r <=? j) && (j <? 28 * r + 3) ||
        (28 * r + 7 <=? j) && (j <? 28 * r + 10) ||
        (28 * r + 14 <=? j) && (j <? 28 * r + 17) ||
        (28 * r + 21 <=? j) && (j <? 28 * r + 24))%nat%bool
    then nth ((j - 28 * r) - 7 * ((j - 28 * r) / 7))
             [x0 + distance (star_at r w) * cos (angle (star_at r w));
              y0 + distance (star_at r w) * sin (angle (star_at r w));
              size (star_at r w)] 0
    else vertex_at j w.
Proof.
  intros Hv Hb Hl.
  unfold Star_update, Star_iterate. rewrite Hv, Hb, range3_quad.
  set (t := [x0 + distance (star_at r w) * cos (angle (star_at r w));
             y0 + distance (star_at r w) * sin (angle (star_at r w));
             size (star_at r w)]).
  cbn [fold_left]. unfold vertex_at, star_at.
  cbn [vertices stars set_vertices]. fold (star_at r w). fold t.
  set (b := (28 * r)%nat) in *.
  set (l0 := vertices w) in *.
  set (l1 := Py.set_slice b (b + 3) t l0).
  set (l2 := Py.set_slice (b + 7) (b + 7 + 3) t l1).
  set (l3 := Py.set_slice (b + 14) (b + 14 + 3) t l2).
  assert (T : length t = 3%nat) by reflexivity.
  assert (L1 : length l1 = length l0)
    by (apply length_set_slice3; [exact T | lia]).
  assert (L2 : length l2 = length l0)
    by (unfold l2; rewrite length_set_slice3; [exact L1 | exact T | lia]).
  assert (L3 : length l3 = length l0)
    by (unfold l3; rewrite length_set_slice3; [exact L2 | exact T | lia]).
  split.
  - rewrite length_set_slice3; [exact L3 | exact T | lia].
  - intros j.
    rewrite (nth_set_slice3 (b + 21) j t l3) by (trivial; lia).
    unfold l3. rewrite (nth_set_slice3 (b + 14) j t l2) by (trivial; lia).
    unfold l2. rewrite (nth_set_slice3 (b + 7) j t l1) by (trivial; lia).
    unfold l1. rewrite (nth_set_slice3 b j t l0) by (trivial; lia).
    assert (D : forall q c, (c < 7)%nat -> ((c + q * 7) / 7 = q)%nat).
    { intros q c Hc. rewrite Nat.div_add by lia.
      rewrite Nat.div_small by lia. reflexivity. }
    repeat match goal with
           | |- context [(?a <? ?c)%nat] => destruct (Nat.ltb_spec a c)
           | |- context [(?a <=? ?c)%nat] => destruct (Nat.leb_spec a c)
           end; cbn [andb orb]; try lia; try reflexivity.
    + assert (E : ((j - b) / 7 = 0)%nat).
      { replace (j - b)%nat with (j - b + 0 * 7)%nat by lia. apply D. lia. }
      rewrite E. f_equal. lia.
    + assert (E : ((j - b) / 7 = 1)%nat).
      { replace (j - b)%nat with (j - (b + 7) + 1 * 7)%nat by lia.
        apply D. lia. }
      rewrite E. f_equal. lia.
    + assert (E : ((j - b) / 7 = 2)%nat).
      { replace (j - b)%nat with (j - (b + 14) + 2 * 7)%nat by lia.
        apply D. lia. }
      rewrite E. f_equal. lia.
    + assert (E : ((j - b) / 7 = 3)%nat).
      { replace (j - b)%nat with (j - (b + 21) + 3 * 7)%nat by lia.
        apply D. lia. }
      rewrite E. f_equal. lia.
Qed.

Lemma Star_update_slot (r : nat) (x0 y0 : R) (w : World) (k o : nat) :
  vsize w = 7%nat ->
  base_idx (star_at r w) = (28 * r)%nat ->
  (28 * r + 28 <= length (vertices w))%nat ->
  (k < 4)%nat -> (o < 7)%nat ->
  vertex_at (28 * r + 7 * k + o) (Star_update r x0 y0 w) =
  if (o <? 3)%nat
  then nth o [x0 + distance (star_at r w) * cos (angle (star_at r w));
              y0 + distance (star_at r w) * sin (angle (star_at r w));
              size (star_at r w)] 0
  else vertex_at (28 * r + 7 * k + o) w.
Proof.
  intros Hv Hb Hl Hk Ho.
  destruct (Star_update_vertices r x0 y0 w Hv Hb Hl) as [_ H].
  rewrite H. clear H.
  assert (E : ((28 * r + 7 * k + o - 28 * r) / 7 = k)%nat).
  { replace (28 * r + 7 * k + o - 28 * r)%nat with (o + k * 7)%nat by lia.
    rewrite Nat.div_add by lia. rewrite Nat.div_small by lia. reflexivity. }
  rewrite E.
  replace (28 * r + 7 * k + o - 28 * r - 7 * k)%nat with o by lia.
  repeat match goal with
         | |- context [(?a <? ?c)%nat] => destruct (Nat.ltb_spec a c)
         | |- context [(?a <=? ?c)%nat] => destruct (Nat.leb_spec a c)
         end; cbn [andb orb]; try lia; reflexivity.
Qed.

Lemma Star_update_outside (r : nat) (x0 y0 : R) (w : World) (j : nat) :
  vsize w = 7%nat ->
  base_idx (star_at r w) = (28 * r)%nat ->
  (28 * r + 28 <= length (vertices w))%nat ->
  (j < 28 * r \/ 28 * r + 28 <= j)%nat ->
  vertex_at j (Star_update r x0 y0 w) = vertex_at j w.
Proof.
  intros Hv Hb Hl Hj.
  destruct (Star_update_vertices r x0 y0 w Hv Hb Hl) as [_ H].
  rewrite H. clear H.
  repeat match goal with
         | |- context [(?a <? ?c)%nat] => destruct (Nat.ltb_spec a c)
         | |- context [(?a <=? ?c)%nat] => destruct (Nat.leb_spec a c)
         end; cbn [andb orb]; try lia; reflexivity.
Qed.

Lemma Star_update_static (r : nat) (x0 y0 : R) (w : World) (v o : nat) :
  vsize w = 7%nat ->
  base_idx (star_at r w) = (28 * r)%nat ->
  (28 * r + 28 <= length (vertices w))%nat ->
  (3 <= o < 7)%nat ->
  vertex_at (7 * v + o) (Star_update r x0 y0 w) = vertex_at (7 * v + o) w.
Proof.
  intros Hv Hb Hl Ho.
  destruct (Star_update_vertices r x0 y0 w Hv Hb Hl) as [_ H].
  rewrite H. clear H.
  repeat match goal with
         | |- context [(?a <? ?c)%nat] => destruct (Nat.ltb_spec a c)
         | |- context [(?a <=? ?c)%nat] => destruct (Nat.leb_spec a c)
         end; cbn [andb orb]; try lia; reflexivity.
Qed.

(** ** The invariant *)

Lemma keeps_refl (w : World) : keeps w w.
Proof. unfold keeps. repeat split; auto. Qed.

Lemma keeps_trans (w1 w2 w3 : World) :
  keeps w1 w2 -> keeps w2 w3 -> keeps w1 w3.
Proof.
  unfold keeps.
  intros (A1 & A2 & A3 & A4 & A5 & A6 & A7 & A8)
         (B1 & B2 & B3 & B4 & B5 & B6 & B7 & B8).
  split; [congruence|]. split; [congruence|]. split; [congruence|].
  split; [lia|]. split; [congruence|]. split; [congruence|]. split.
  - intros q. rewrite B7. apply A7.
  - intros v o Ho. rewrite B8 by exact Ho. apply A8. exact Ho.
Qed.

Lemma keeps_wf (w w' : World) : wf w -> keeps w w' -> wf w'.
Proof.
  unfold wf, keeps.
  intros (W1 & W2 & W3) (A1 & A2 & A3 & A4 & A5 & A6 & A7 & A8).
  rewrite A1, A5, A6. split; [exact W1|]. split; [exact W2|].
  intros r Hr. rewrite A7. apply W3. exact Hr.
Qed.

Lemma wf_block (w : World) (r : nat) :
  wf w -> (r < length (stars w))%nat ->
  vsize w = 7%nat /\ base_idx (star_at r w) = (28 * r)%nat /\
  (28 * r + 28 <= length (vertices w))%nat.
Proof.
  intros (W1 & W2 & W3) Hr. specialize (W3 r Hr).
  rewrite W1 in *. repeat split; lia.
Qed.

Lemma gtb_true (a b : R) : Py.gtb a b = true <-> b < a.
Proof.
  unfold Py.gtb. destruct (Rlt_dec b a); split; intros; auto; discriminate.
Qed.

Lemma gtb_false (a b : R) : Py.gtb a b = false <-> a <= b.
Proof.
  unfold Py.gtb. destruct (Rlt_dec b a); split; intros;
    auto; try lra; try discriminate.
Qed.

Lemma max_Rmax (a b : R) : Py.max a b = Rmax a b.
Proof.
  unfold Py.max, Rmax.
  destruct (Rlt_dec a b), (Rle_dec a b); lra.
Qed.

Lemma upd_nth_beyond {A : Type} (n : nat) (f : A -> A) (l : list A) :
  (length l <= n)%nat -> Py.upd_nth n f l = l.
Proof.
  revert n; induction l as [|x l IH]; intros [|n] H; simpl in *;
    try lia; auto.
  f_equal. apply IH. lia.
Qed.

Lemma base_idx_upd_star (r q : nat) (f : Star -> Star) (w : World) :
  (forall s, base_idx (f s) = base_idx s) ->
  base_idx (star_at q (upd_star r f w)) = base_idx (star_at q w).
Proof.
  intros Hf. destruct (Nat.eq_dec r q) as [->|Hq].
  - destruct (Nat.lt_ge_cases q (length (stars w))) as [H|H].
    + rewrite star_at_upd_star_eq by exact H. apply Hf.
    + unfold star_at, upd_star. simpl. rewrite upd_nth_beyond by exact H.
      reflexivity.
  - rewrite star_at_upd_star_neq by exact Hq. reflexivity.
Qed.

(** ** The loop body of [update_glsl] *)

(** Lines 128 and 129: the two attribute updates that open the body. *)
Lemma grow_lines (nap : R) (r : nat) (w : World) :
  let w2 := upd_star r (fun s => set_size (size s + 0.25 * nap) s)
              (upd_star r (fun s => set_distance (distance s * (2 * nap + 1)) s) w) in
  vsize w2 = vsize w /\ indices w2 = indices w /\ vertices w2 = vertices w /\
  rand w2 = rand w /\ rpos w2 = rpos w /\
  length (stars w2) = length (stars w) /\
  (forall q, q <> r -> star_at q w2 = star_at q w) /\
  ((r < length (stars w))%nat -> star_at r w2 = grown nap (star_at r w)) /\
  (forall q, base_idx (star_at q w2) = base_idx (star_at q w)).
Proof.
  intros w2. unfold w2.
  split; [reflexivity|]. split; [reflexivity|]. split; [reflexivity|].
  split; [reflexivity|]. split; [reflexivity|]. split; [|split; [|split]].
  - rewrite !length_stars_upd_star. reflexivity.
  - intros q Hq. rewrite !star_at_upd_star_neq by congruence. reflexivity.
  - intros Hr. rewrite star_at_upd_star_eq
      by (rewrite length_stars_upd_star; exact Hr).
    rewrite star_at_upd_star_eq by exact Hr. reflexivity.
  - intros q. rewrite !base_idx_upd_star; auto.
Qed.

Lemma star_frame_other (x0 y0 m nap : R) (r q : nat) (w : World) :
  q <> r -> star_at q (star_frame x0 y0 m nap r w) = star_at q w.
Proof.
  intros Hq. unfold star_frame.
  destruct (grow_lines nap r w) as (_ & _ & _ & _ & _ & _ & G & _ & _).
  cbv zeta in G.
  match goal with |- context [if ?c then _ else _] => destruct c end.
  - destruct (Star_reset_frame r
      (upd_star r (fun s => set_size (size s + 0.25 * nap) s)
        (upd_star r (fun s => set_distance (distance s * (2 * nap + 1)) s) w)))
      as (_ & _ & _ & _ & _ & _ & H).
    rewrite H by exact Hq. apply G. exact Hq.
  - unfold star_at at 1.
    destruct (Star_update_frame r x0 y0
      (upd_star r (fun s => set_size (size s + 0.25 * nap) s)
        (upd_star r (fun s => set_distance (distance s * (2 * nap + 1)) s) w)))
      as (_ & _ & H & _ & _).
    rewrite H. apply G. exact Hq.
Qed.

Lemma star_frame_keeps (x0 y0 m nap : R) (r : nat) (w : World) :
  wf w -> (r < length (stars w))%nat ->
  keeps w (star_frame x0 y0 m nap r w).
Proof.
  intros W Hr. unfold star_frame.
  destruct (grow_lines nap r w) as (G1 & G2 & G3 & G4 & G5 & G6 & G7 & G8 & G9).
  cbv zeta in *.
  set (w2 := upd_star r (fun s => set_size (size s + 0.25 * nap) s)
        (upd_star r (fun s => set_distance (distance s * (2 * nap + 1)) s) w)) in *.
  assert (K2 : keeps w w2).
  { unfold keeps. rewrite G1, G2, G3, G4, G5, G6.
    repeat (split; [reflexivity || lia|]). split; [exact G9|].
    intros v o _. unfold vertex_at. rewrite G3. reflexivity. }
  apply (keeps_trans w w2); [exact K2|].
  assert (W2 : wf w2) by (apply (keeps_wf w); assumption).
  assert (Hr2 : (r < length (stars w2))%nat) by (rewrite G6; exact Hr).
  destruct (Py.gtb (distance (star_at r w2)) m).
  - destruct (Star_reset_frame r w2) as (H1 & H2 & H3 & H4 & H5 & H6 & H7).
    unfold keeps. rewrite H1, H2, H3, H4, H5, H6.
    repeat (split; [reflexivity || lia|]). split.
    + intros q. destruct (Nat.eq_dec q r) as [->|Hq].
      * rewrite Star_reset_star by exact Hr2. reflexivity.
      * rewrite H7 by exact Hq. reflexivity.
    + intros v o _. unfold vertex_at. rewrite H3. reflexivity.
  - destruct (Star_update_frame r x0 y0 w2) as (H1 & H2 & H3 & H4 & H5).
    destruct (wf_block w2 r W2 Hr2) as (B1 & B2 & B3).
    destruct (Star_update_vertices r x0 y0 w2 B1 B2 B3) as [L _].
    unfold keeps. rewrite H1, H2, H3, H4, H5, L.
    repeat (split; [reflexivity || lia|]). split.
    + intros q. unfold star_at. rewrite H3. reflexivity.
    + intros v o Ho. apply Star_update_static; assumption.
Qed.

Lemma star_frame_outside (x0 y0 m nap : R) (r : nat) (w : World) (j : nat) :
  wf w -> (r < length (stars w))%nat ->
  (j < 28 * r \/ 28 * r + 28 <= j)%nat ->
  vertex_at j (star_frame x0 y0 m nap r w) = vertex_at j w.
Proof.
  intros W Hr Hj. unfold star_frame.
  destruct (grow_lines nap r w) as (G1 & G2 & G3 & G4 & G5 & G6 & G7 & G8 & G9).
  cbv zeta in *.
  set (w2 := upd_star r (fun s => set_size (size s + 0.25 * nap) s)
        (upd_star r (fun s => set_distance (distance s * (2 * nap + 1)) s) w)) in *.
  assert (W2 : wf w2).
  { destruct W as (W1 & W2 & W3). unfold wf. rewrite G1, G3, G6.
    split; [exact W1|]. split; [exact W2|].
    intros q Hq. rewrite G9. apply W3. exact Hq. }
  assert (Hr2 : (r < length (stars w2))%nat) by (rewrite G6; exact Hr).
  assert (V : vertex_at j w2 = vertex_at j w)
    by (unfold vertex_at; rewrite G3; reflexivity).
  destruct (Py.gtb (distance (star_at r w2)) m).
  - destruct (Star_reset_frame r w2) as (_ & _ & H3 & _).
    unfold vertex_at in *. rewrite H3. exact V.
  - destruct (wf_block w2 r W2 Hr2) as (B1 & B2 & B3).
    rewrite Star_update_outside by assumption. exact V.
Qed.

Lemma star_frame_post (x0 y0 nap : R) (r : nat) (w : World) :
  wf w -> (r < length (stars w))%nat ->
  frame_post x0 y0 nap w (star_frame x0 y0 (1.1 * Py.max x0 y0) nap r w) r.
Proof.
  intros W Hr. unfold frame_post, star_frame.
  destruct (grow_lines nap r w) as (G1 & G2 & G3 & G4 & G5 & G6 & G7 & G8 & G9).
  cbv zeta in *.
  set (w2 := upd_star r (fun s => set_size (size s + 0.25 * nap) s)
        (upd_star r (fun s => set_distance (distance s * (2 * nap + 1)) s) w)) in *.
  assert (W2 : wf w2).
  { destruct W as (W1 & W2 & W3). unfold wf. rewrite G1, G3, G6.
    split; [exact W1|]. split; [exact W2|].
    intros q Hq. rewrite G9. apply W3. exact Hq. }
  assert (Hr2 : (r < length (stars w2))%nat) by (rewrite G6; exact Hr).
  specialize (G8 Hr).
  assert (D : distance (star_at r w2) = grown_distance nap (star_at r w))
    by (rewrite G8; reflexivity).
  destruct (Py.gtb (distance (star_at r w2)) (1.1 * Py.max x0 y0)) eqn:E.
  - apply gtb_true in E. rewrite D in E. split; [|intros; lra].
    intros _. split.
    + exists (rpos w).
      destruct (Star_reset_frame r w2) as (_ & _ & _ & H4 & H5 & _).
      split; [lia|]. split; [rewrite H5, G5; lia|].
      rewrite Star_reset_star by exact Hr2.
      rewrite G4, G5, G9. reflexivity.
    + intros j _.
      destruct (Star_reset_frame r w2) as (_ & _ & H3 & _).
      unfold vertex_at. rewrite H3, G3. reflexivity.
  - apply gtb_false in E. rewrite D in E. split; [intros; lra|].
    intros _. split.
    + unfold star_at at 1.
      destruct (Star_update_frame r x0 y0 w2) as (_ & _ & H3 & _).
      rewrite H3. exact G8.
    + intros k o Hk Ho.
      destruct (wf_block w2 r W2 Hr2) as (B1 & B2 & B3).
      rewrite Star_update_slot by assumption.
      rewrite G8. cbn [distance angle size grown].
      unfold vertex_at. rewrite G3. reflexivity.
Qed.

(** ** The loop of [update_glsl] *)

Lemma frame_post_before (x0 y0 nap : R) (w w1 w' : World) (q : nat) :
  same_at q w w1 -> rand w1 = rand w -> (rpos w <= rpos w1)%nat ->
  frame_post x0 y0 nap w1 w' q -> frame_post x0 y0 nap w w' q.
Proof.
  intros [S V] Hr Hp [P1 P2]. unfold frame_post in *. cbv zeta in *.
  rewrite S, Hr in *. split.
  - intros H. destruct (P1 H) as [(k & K1 & K2 & K3) Q]. split.
    + exists k. split; [lia|]. split; [exact K2|exact K3].
    + intros j Hj. rewrite Q by exact Hj. apply V. exact Hj.
  - intros H. destruct (P2 H) as [Q1 Q2]. split; [exact Q1|].
    intros k o Hk Ho. rewrite Q2 by assumption.
    destruct (o <? 3)%nat; [reflexivity|]. apply V. lia.
Qed.

Lemma frame_post_after (x0 y0 nap : R) (w w1 w' : World) (r : nat) :
  same_at r w1 w' -> (rpos w1 <= rpos w')%nat ->
  frame_post x0 y0 nap w w1 r -> frame_post x0 y0 nap w w' r.
Proof.
  intros [S V] Hp [P1 P2]. unfold frame_post in *. cbv zeta in *.
  rewrite S. split.
  - intros H. destruct (P1 H) as [(k & K1 & K2 & K3) Q]. split.
    + exists k. split; [exact K1|]. split; [lia|exact K3].
    + intros j Hj. rewrite V by exact Hj. apply Q. exact Hj.
  - intros H. destruct (P2 H) as [Q1 Q2]. split; [exact Q1|].
    intros k o Hk Ho. rewrite V by lia. apply Q2; assumption.
Qed.

Lemma star_frame_same_at (x0 y0 m nap : R) (r q : nat) (w : World) :
  wf w -> (r < length (stars w))%nat -> q <> r ->
  same_at q w (star_frame x0 y0 m nap r w).
Proof.
  intros W Hr Hq. split.
  - apply star_frame_other. exact Hq.
  - intros j Hj. apply star_frame_outside; try assumption. lia.
Qed.

Lemma same_at_trans (q : nat) (w1 w2 w3 : World) :
  same_at q w1 w2 -> same_at q w2 w3 -> same_at q w1 w3.
Proof.
  intros [S1 V1] [S2 V2]. split.
  - congruence.
  - intros j Hj. rewrite V2 by exact Hj. apply V1. exact Hj.
Qed.

Lemma frames_fold (x0 y0 nap : R) (rs : list nat) :
  NoDup rs ->
  forall w : World,
    wf w -> (forall r, In r rs -> (r < length (stars w))%nat) ->
    let w' := fold_left
                (fun w r => star_frame x0 y0 (1.1 * Py.max x0 y0) nap r w)
                rs w in
    keeps w w' /\
    (forall q, ~ In q rs -> same_at q w w') /\
    (forall r, In r rs -> frame_post x0 y0 nap w w' r).
Proof.
  induction 1 as [|r rs Hnin Hnd IH]; intros w W Hin; cbn [fold_left].
  - split; [apply keeps_refl|]. split.
    + intros q _. split; auto.
    + intros r [].
  - set (w1 := star_frame x0 y0 (1.1 * Py.max x0 y0) nap r w).
    assert (Hr : (r < length (stars w))%nat) by (apply Hin; left; reflexivity).
    assert (K1 : keeps w w1) by (apply star_frame_keeps; assumption).
    assert (W1 : wf w1) by (apply (keeps_wf w); assumption).
    assert (L1 : length (stars w1) = length (stars w)) by apply K1.
    destruct (IH w1 W1) as (K & S & P).
    { intros q Hq. rewrite L1. apply Hin. right. exact Hq. }
    cbv zeta in *. split; [apply (keeps_trans w w1); assumption|]. split.
    + intros q Hq. apply (same_at_trans q w w1).
      * apply star_frame_same_at; try assumption.
        intros ->. apply Hq. left. reflexivity.
      * apply S. intros H. apply Hq. right. exact H.
    + intros q [<-|Hq].
      * apply (frame_post_after x0 y0 nap w w1).
        -- apply S. exact Hnin.
        -- apply K.
        -- apply star_frame_post; assumption.
      * apply (frame_post_before x0 y0 nap w w1).
        -- apply star_frame_same_at; try assumption.
           intros ->. contradiction.
        -- apply K1.
        -- apply K1.
        -- apply P. exact Hq.
Qed.

(** One frame: what [update_glsl] keeps, and what it does to every star. *)
Lemma update_glsl_keeps (c : R * R) (nap : R) (w : World) :
  wf w -> keeps w (update_glsl c nap w).
Proof.
  intros W. destruct c as [x0 y0]. unfold update_glsl.
  apply (frames_fold x0 y0 nap (seq 0 (length (stars w)))).
  - apply seq_NoDup.
  - exact W.
  - intros r Hr. apply in_seq in Hr. lia.
Qed.

Lemma update_glsl_post (x0 y0 nap : R) (w : World) (r : nat) :
  wf w -> (r < length (stars w))%nat ->
  frame_post x0 y0 nap w (update_glsl (x0, y0) nap w) r.
Proof.
  intros W Hr. unfold update_glsl.
  apply (frames_fold x0 y0 nap (seq 0 (length (stars w)))).
  - apply seq_NoDup.
  - exact W.
  - intros q Hq. apply in_seq in Hq. lia.
  - apply in_seq. lia.
Qed.

Lemma update_glsl_wf (c : R * R) (nap : R) (w : World) :
  wf w -> wf (update_glsl c nap w).
Proof.
  intros W. apply (keeps_wf w); [exact W|]. apply update_glsl_keeps. exact W.
Qed.

Lemma run_keeps (fs : list Frame) :
  forall w : World, wf w -> keeps w (run fs w).
Proof.
  induction fs as [|f fs IH]; intros w W; cbn [run fold_left].
  - apply keeps_refl.
  - apply (keeps_trans w (update_glsl (fst f) (snd f) w)).
    + apply update_glsl_keeps. exact W.
    + apply IH. apply update_glsl_wf. exact W.
Qed.

Lemma run_wf (fs : list Frame) (w : World) : wf w -> wf (run fs w).
Proof.
  intros W. apply (keeps_wf w); [exact W|]. apply run_keeps. exact W.
Qed.

(** ** Construction *)

Lemma fold_extend {A B : Type} (f : B -> list A) (l : list B) (a : list A) :
  fold_left (fun acc x => Py.extend acc (f x)) l a = a ++ flat_map f l.
Proof.
  revert a; induction l as [|x l IH]; intros a; simpl.
  - symmetry. apply app_nil_r.
  - rewrite IH. unfold Py.extend. rewrite <- app_assoc. reflexivity.
Qed.

Lemma range3_by4 (n : nat) :
  Py.range3 0 (4 * n) 4 = map (fun i => (4 * i)%nat) (seq 0 n).
Proof.
  unfold Py.range3.
  replace ((4 * n - 0 + (4 - 1)) / 4)%nat with n.
  - apply map_ext. intros k. lia.
  - replace (4 * n - 0 + (4 - 1))%nat with (3 + n * 4)%nat by lia.
    rewrite Nat.div_add by lia. reflexivity.
Qed.

Lemma vsize_init (n : nat) (rnd : nat -> R) :
  forall w0 : World,
    vsize (fold_left (fun w i => Star_init i w) (Py.range n) w0) = vsize w0 /\
    indices (fold_left (fun w i => Star_init i w) (Py.range n) w0) = indices w0 /\
    vertices (fold_left (fun w i => Star_init i w) (Py.range n) w0) = vertices w0 /\
    rand (fold_left (fun w i => Star_init i w) (Py.range n) w0) = rand w0.
Proof.
  unfold Py.range. intros w0. revert w0. generalize 0%nat as a.
  induction n as [|n IH]; intros a w0; cbn [seq fold_left].
  - repeat split.
  - destruct (IH (S a) (Star_init a w0)) as (H1 & H2 & H3 & H4).
    rewrite H1, H2, H3, H4. unfold Star_init.
    destruct (Star_reset_frame (length (stars w0))
      (set_stars (stars w0 ++ [Star_defaults (4 * a * vsize w0)]) w0))
      as (R1 & R2 & R3 & R4 & _).
    rewrite R1, R2, R3, R4. repeat split.
Qed.

Lemma stars_init (n : nat) :
  forall w0 : World,
    stars w0 = [] -> rpos w0 = 0%nat ->
    let w := fold_left (fun w i => Star_init i w) (Py.range n) w0 in
    vsize w = vsize w0 /\ rand w = rand w0 /\
    rpos w = (3 * n)%nat /\ length (stars w) = n /\
    forall r, (r < n)%nat ->
      star_at r w = redrawn (rand w0) (3 * r) (4 * r * vsize w0).
Proof.
  intros w0 S0 P0. unfold Py.range.
  induction n as [|n IH]; cbn zeta.
  - cbn [seq fold_left]. rewrite S0, P0.
    repeat split; try reflexivity. intros r Hr. lia.
  - rewrite seq_S, fold_left_app. cbn [fold_left Nat.add].
    cbv zeta in IH. destruct IH as (I1 & I2 & I3 & I4 & I5).
    set (w := fold_left (fun w i => Star_init i w) (seq 0 n) w0) in *.
    unfold Star_init.
    set (w1 := set_stars (stars w ++ [Star_defaults (4 * n * vsize w)]) w).
    assert (L1 : length (stars w1) = S n).
    { unfold w1. cbn [stars set_stars]. rewrite length_app, I4. simpl. lia. }
    destruct (Star_reset_frame (length (stars w)) w1)
      as (R1 & R2 & R3 & R4 & R5 & R6 & R7).
    rewrite R1, R4, R5, R6.
    split; [exact I1|]. split; [exact I2|].
    split; [unfold w1; cbn [rpos set_stars]; lia|]. split; [exact L1|].
    intros r Hr. destruct (Nat.eq_dec r n) as [->|Hn].
    + rewrite <- I4 at 1. rewrite Star_reset_star by (rewrite L1, I4; lia).
      unfold w1 at 1 2. cbn [rand rpos set_stars]. rewrite I2, I3.
      f_equal. unfold star_at, w1. cbn [stars set_stars].
      rewrite app_nth2 by lia. rewrite I4, Nat.sub_diag, I1. reflexivity.
    + rewrite R7 by (rewrite I4; exact Hn).
      unfold star_at, w1. cbn [stars set_stars].
      rewrite app_nth1 by lia. apply I5. lia.
Qed.

Lemma length_flat_quads (a n : nat) :
  length (flat_map (fun _ : nat => quad_vertices) (seq a n)) = (28 * n)%nat.
Proof.
  revert a. induction n as [|n IH]; intros a; cbn [seq flat_map].
  - reflexivity.
  - rewrite length_app, IH. cbn [length quad_vertices]. lia.
Qed.

Lemma nth_flat_quads (a n i j : nat) :
  (i < n)%nat -> (j < 28)%nat ->
  nth (28 * i + j) (flat_map (fun _ : nat => quad_vertices) (seq a n)) 0 =
  nth j quad_vertices 0.
Proof.
  revert i a.
  induction n as [|n IH]; intros i a Hi Hj; [lia|].
  cbn [seq flat_map]. destruct i as [|i].
  - rewrite app_nth1 by (cbn [length quad_vertices]; lia).
    f_equal.
  - rewrite app_nth2 by (cbn [length quad_vertices]; lia).
    replace (28 * S i + j - length quad_vertices)%nat with (28 * i + j)%nat
      by (cbn [length quad_vertices]; lia).
    apply IH; lia.
Qed.

(** The world that [Starfield.__init__] builds. *)
Lemma Starfield_init_spec (n : nat) (rnd : nat -> R) :
  vsize (Starfield_init n rnd) = 7%nat /\
  indices (Starfield_init n rnd) =
    flat_map quad_indices (map (fun i => (4 * i)%nat) (seq 0 n)) /\
  vertices (Starfield_init n rnd) =
    flat_map (fun _ : nat => quad_vertices) (seq 0 n) /\
  rand (Starfield_init n rnd) = rnd /\
  rpos (Starfield_init n rnd) = (3 * n)%nat /\
  length (stars (Starfield_init n rnd)) = n /\
  forall r, (r < n)%nat ->
    star_at r (Starfield_init n rnd) = redrawn rnd (3 * r) (28 * r).
Proof.
  unfold Starfield_init. cbv zeta.
  rewrite !fold_extend, range3_by4. cbn [app].
  change (list_sum (map (fun attr => snd (fst attr)) vfmt)) with 7%nat.
  set (w0 := {| vsize := 7;
                indices := flat_map quad_indices
                             (map (fun i => (4 * i)%nat) (seq 0 n));
                vertices := flat_map (fun _ : nat => quad_vertices) (Py.range n);
                stars := []; rand := rnd; rpos := 0 |}).
  destruct (vsize_init n rnd w0) as (V1 & V2 & V3 & V4).
  destruct (stars_init n w0 eq_refl eq_refl) as (S1 & S2 & S3 & S4 & S5).
  cbv zeta in *. rewrite V1, V2, V3, V4.
  repeat (split; [reflexivity || assumption|]).
  intros r Hr. rewrite S5 by exact Hr. cbn [rand vsize w0].
  f_equal. lia.
Qed.

Lemma Starfield_init_wf (n : nat) (rnd : nat -> R) : wf (Starfield_init n rnd).
Proof.
  destruct (Starfield_init_spec n rnd) as (V & _ & E & _ & _ & L & S).
  unfold wf. rewrite V, E, L, length_flat_quads.
  split; [reflexivity|]. split; [lia|].
  intros r Hr. rewrite S by exact Hr. cbn [base_idx redrawn]. lia.
Qed.

(** ** One frame, star by star *)

Lemma update_glsl_kept (x0 y0 nap : R) (w : World) (r : nat) :
  wf w -> (r < length (stars w))%nat ->
  grown_distance nap (star_at r w) <= 1.1 * Py.max x0 y0 ->
  star_at r (update_glsl (x0, y0) nap w) = grown nap (star_at r w) /\
  forall k, (k < 4)%nat ->
    slot_triple (base_idx (star_at r w) + k * vsize w)
                (update_glsl (x0, y0) nap w) =
    (x0 + grown_distance nap (star_at r w) * cos (angle (star_at r w)),
     y0 + grown_distance nap (star_at r w) * sin (angle (star_at r w)),
     grown_size nap (star_at r w)).
Proof.
  intros W Hr Hd.
  destruct (update_glsl_post x0 y0 nap w r W Hr) as [_ P]. cbv zeta in P.
  destruct (P Hd) as [S V]. split; [exact S|].
  intros k Hk. destruct (wf_block w r W Hr) as (B1 & B2 & _).
  rewrite B1, B2. unfold slot_triple.
  replace (28 * r + k * 7)%nat with (28 * r + 7 * k + 0)%nat at 1 by lia.
  replace (28 * r + k * 7 + 1)%nat with (28 * r + 7 * k + 1)%nat by lia.
  replace (28 * r + k * 7 + 2)%nat with (28 * r + 7 * k + 2)%nat by lia.
  rewrite !V by lia. reflexivity.
Qed.

Lemma update_glsl_reset (x0 y0 nap : R) (w : World) (r : nat) :
  wf w -> (r < length (stars w))%nat ->
  1.1 * Py.max x0 y0 < grown_distance nap (star_at r w) ->
  (exists k, (rpos w <= k)%nat /\
             star_at r (update_glsl (x0, y0) nap w) =
             redrawn (rand w) k (base_idx (star_at r w))) /\
  forall j, (base_idx (star_at r w) <= j
             < base_idx (star_at r w) + 4 * vsize w)%nat ->
    vertex_at j (update_glsl (x0, y0) nap w) = vertex_at j w.
Proof.
  intros W Hr Hd.
  destruct (update_glsl_post x0 y0 nap w r W Hr) as [P _]. cbv zeta in P.
  destruct (P Hd) as [(k & K1 & _ & K3) V]. split.
  - exists k. split; assumption.
  - intros j Hj. destruct (wf_block w r W Hr) as (B1 & B2 & _).
    rewrite B1, B2 in Hj. apply V. lia.
Qed.

Lemma redrawn_ranges (rnd : nat -> R) (k b : nat) :
  unit_draws rnd ->
  0 <= angle (redrawn rnd k b) < 2 * PI /\
  10 <= distance (redrawn rnd k b) < 100 /\
  0.05 <= size (redrawn rnd k b) < 0.10.
Proof.
  intros U. cbn [angle distance size redrawn].
  pose proof (U k) as U0. pose proof (U (S k)) as U1.
  pose proof (U (S (S k))) as U2. pose proof PI_RGT_0 as HP.
  repeat split; try lra; try nra.
Qed.

(** ** The arrays built at construction *)

Lemma flat_quad_indices_bound (n : nat) :
  Forall (fun v => (v < 4 * n)%nat)
         (flat_map quad_indices (map (fun i => (4 * i)%nat) (seq 0 n))).
Proof.
  apply Forall_forall. intros v Hv.
  apply in_flat_map in Hv. destruct Hv as (b & Hb & Hv).
  apply in_map_iff in Hb. destruct Hb as (i & <- & Hi).
  apply in_seq in Hi. unfold quad_indices in Hv. simpl in Hv.
  intuition lia.
Qed.

Lemma length_flat_quad_indices (l : list nat) :
  length (flat_map quad_indices l) = (7 * length l)%nat.
Proof.
  induction l as [|b l IH]; simpl; [reflexivity|]. rewrite IH. lia.
Qed.

(** C5. The index array built by [Starfield.__init__] for [n] stars is the
    concatenation, for [i] from [0] to [n - 1] with [base = 4 * i], of
    [base, base+1, base+2, base+2, base+2, base+3, base]; its length is
    [7 * n]; every value is below [4 * n]; no run of frames changes it; and
    for two stars it is [0,1,2,2,2,3,0,4,5,6,6,6,7,4]. *)
Theorem C5_index_buffer (n : nat) (rnd : nat -> R) :
  indices (Starfield_init n rnd) =
    flat_map (fun i => [4 * i; 4 * i + 1; 4 * i + 2; 4 * i + 2;
                        4 * i + 2; 4 * i + 3; 4 * i]%nat) (seq 0 n) /\
  length (indices (Starfield_init n rnd)) = (7 * n)%nat /\
  Forall (fun v => (0 <= v < 4 * n)%nat) (indices (Starfield_init n rnd)) /\
  (forall fs : list Frame,
     indices (run fs (Starfield_init n rnd)) = indices (Starfield_init n rnd)) /\
  indices (Starfield_init 2 rnd) = [0; 1; 2; 2; 2; 3; 0; 4; 5; 6; 6; 6; 7; 4]%nat.
Proof.
  destruct (Starfield_init_spec n rnd) as (_ & E & _).
  destruct (Starfield_init_spec 2 rnd) as (_ & E2 & _).
  split; [|split; [|split; [|split]]].
  - rewrite E, flat_map_concat_map, map_map, <- flat_map_concat_map.
    reflexivity.
  - rewrite E, length_flat_quad_indices, length_map, length_seq. reflexivity.
  - rewrite E. eapply Forall_impl; [|apply flat_quad_indices_bound].
    intros v Hv. simpl in *. lia.
  - intros fs. apply (run_keeps fs). apply Starfield_init_wf.
  - rewrite E2. reflexivity.
Qed.

(** The scalars of the vertex array at construction. *)
Lemma init_vertex_scalar (n : nat) (rnd : nat -> R) (i k j : nat) :
  (i < n)%nat -> (k < 4)%nat -> (j < 7)%nat ->
  vertex_at ((4 * i + k) * 7 + j) (Starfield_init n rnd) =
  nth (7 * k + j) quad_vertices 0.
Proof.
  intros Hi Hk Hj.
  destruct (Starfield_init_spec n rnd) as (_ & _ & E & _).
  unfold vertex_at. rewrite E.
  replace ((4 * i + k) * 7 + j)%nat with (28 * i + (7 * k + j))%nat by lia.
  apply nth_flat_quads; lia.
Qed.

Lemma init_static_attrs (n : nat) (rnd : nat -> R) (i k : nat) :
  (i < n)%nat -> (k < 4)%nat ->
  static_attrs ((4 * i + k) * 7) (Starfield_init n rnd) = nth k corner_attrs [].
Proof.
  intros Hi Hk. unfold static_attrs.
  rewrite !init_vertex_scalar by lia.
  destruct k as [|[|[|[|k]]]]; [..|lia]; reflexivity.
Qed.

(** C6. The vertex array built by [Starfield.__init__] for [n] stars has
    length [4 * n * vsize]; for every star and each of its four vertices the
    dynamic attributes are [(0, 0, 1)] and the static attributes are, in
    vertex order, [(-24,-24)] with texture [(0,1)], [(24,-24)] with [(1,1)],
    [(24,24)] with [(1,0)] and [(-24,24)] with [(0,0)]. *)
Theorem C6_vertex_buffer (n : nat) (rnd : nat -> R) :
  length (vertices (Starfield_init n rnd)) =
    (4 * n * vsize (Starfield_init n rnd))%nat /\
  vsize (Starfield_init n rnd) = 7%nat /\
  forall i k, (i < n)%nat -> (k < 4)%nat ->
    slot_triple ((4 * i + k) * vsize (Starfield_init n rnd))
                (Starfield_init n rnd) = (0, 0, 1) /\
    static_attrs ((4 * i + k) * vsize (Starfield_init n rnd))
                 (Starfield_init n rnd) = nth k corner_attrs [].
Proof.
  destruct (Starfield_init_spec n rnd) as (V & _ & E & _).
  split; [|split].
  - rewrite V, E, length_flat_quads. lia.
  - exact V.
  - intros i k Hi Hk. rewrite V. split.
    + unfold slot_triple.
      rewrite <- (Nat.add_0_r ((4 * i + k) * 7)) at 1.
      rewrite !init_vertex_scalar by lia.
      destruct k as [|[|[|[|k]]]]; [..|lia]; reflexivity.
    + apply init_static_attrs; assumption.
Qed.

(** The construction at two stars: vertex 2 of star 1. *)
Lemma C6_vertex_buffer_witness :
  slot_triple ((4 * 1 + 2) * vsize (Starfield_init 2 (fun _ => 0)))
              (Starfield_init 2 (fun _ => 0)) = (0, 0, 1) /\
  static_attrs ((4 * 1 + 2) * vsize (Starfield_init 2 (fun _ => 0)))
               (Starfield_init 2 (fun _ => 0)) = [24; 24; 1; 0].
Proof.
  apply (proj2 (proj2 (C6_vertex_buffer 2 (fun _ => 0))) 1%nat 2%nat); lia.
Defined.

(** C4. After any run of frames from construction, whatever the elapsed
    times, the centres and the resets, the vertex array still has length
    [4 * n * vsize], and the four static scalars (offsets 3 to 6) of every
    vertex are those of construction. *)
Theorem C4_static_attrs_immutable (n : nat) (rnd : nat -> R) (fs : list Frame) :
  length (vertices (run fs (Starfield_init n rnd))) =
    (4 * n * vsize (Starfield_init n rnd))%nat /\
  vsize (run fs (Starfield_init n rnd)) = vsize (Starfield_init n rnd) /\
  forall v : nat,
    static_attrs (v * vsize (Starfield_init n rnd))
                 (run fs (Starfield_init n rnd)) =
    static_attrs (v * vsize (Starfield_init n rnd)) (Starfield_init n rnd) /\
    ((v < 4 * n)%nat ->
     static_attrs (v * vsize (Starfield_init n rnd))
                  (run fs (Starfield_init n rnd)) =
     nth (v - 4 * (v / 4)) corner_attrs []).
Proof.
  pose proof (Starfield_init_wf n rnd) as W.
  destruct (run_keeps fs _ W) as (K1 & _ & _ & _ & _ & K6 & _ & K8).
  destruct (Starfield_init_spec n rnd) as (V & _ & E & _).
  split; [rewrite K6, V, E, length_flat_quads; lia|]. split; [exact K1|].
  intros v.
  assert (S : static_attrs (v * vsize (Starfield_init n rnd))
                (run fs (Starfield_init n rnd)) =
              static_attrs (v * vsize (Starfield_init n rnd))
                (Starfield_init n rnd)).
  { rewrite V. unfold static_attrs.
    replace (v * 7)%nat with (7 * v)%nat by lia.
    rewrite !K8 by lia. reflexivity. }
  split; [exact S|]. intros Hv. rewrite S, V.
  pose proof (Nat.div_mod_eq v 4) as D.
  pose proof (Nat.mod_upper_bound v 4) as M.
  replace (v - 4 * (v / 4))%nat with (v mod 4)%nat by lia.
  replace v with (4 * (v / 4) + v mod 4)%nat at 1 by lia.
  apply init_static_attrs; [|lia].
  apply Nat.Div0.div_lt_upper_bound. lia.
Qed.

(** Two frames from the construction of one star: vertex 3 keeps the
    corner [(-24, 24)] and the texture coordinates [(0, 0)]. *)
Lemma C4_static_attrs_immutable_witness :
  static_attrs (3 * vsize (Starfield_init 1 (fun _ => 0)))
    (run [((50, 50), 0); ((1, 1), 1)] (Starfield_init 1 (fun _ => 0))) =
  [-24; 24; 0; 0].
Proof.
  apply (proj2 (proj2 (proj2
    (C4_static_attrs_immutable 1 (fun _ => 0) [((50, 50), 0); ((1, 1), 1)]))
    3%nat)).
  lia.
Defined.

(** ** [Star.reset] and the centre of a star *)




(** C8. The centre that [update] computes for a star is
    [(x0 + distance * cos angle, y0 + distance * sin angle)]; it is what
    [update] stores in the first two scalars of the four slots of the star,
    and [update] changes no star, draws nothing and leaves the index array
    alone.  For angle [0], distance [10] and origin [(100, 100)] the centre
    is [(110, 100)]. *)
Theorem C8_compute_center (r : nat) (x0 y0 : R) (w : World) :
  wf w -> (r < length (stars w))%nat ->
  center_of x0 y0 (star_at r w) =
    (x0 + distance (star_at r w) * cos (angle (star_at r w)),
     y0 + distance (star_at r w) * sin (angle (star_at r w))) /\
  (forall k, (k < 4)%nat ->
     (vertex_at (base_idx (star_at r w) + k * vsize w) (Star_update r x0 y0 w),
      vertex_at (base_idx (star_at r w) + k * vsize w + 1)
                (Star_update r x0 y0 w)) =
     center_of x0 y0 (star_at r w)) /\
  stars (Star_update r x0 y0 w) = stars w /\
  rpos (Star_update r x0 y0 w) = rpos w /\
  indices (Star_update r x0 y0 w) = indices w /\
  (forall b z, center_of 100 100
     {| base_idx := b; angle := 0; distance := 10; size := z |} = (110, 100)).
Proof.
  intros W Hr.
  destruct (Star_update_frame r x0 y0 w) as (_ & F2 & F3 & _ & F5).
  destruct (wf_block w r W Hr) as (B1 & B2 & B3).
  split; [reflexivity|]. split; [|split; [exact F3|split; [exact F5|split]]].
  - intros k Hk. rewrite B1, B2. unfold center_of.
    replace (28 * r + k * 7)%nat with (28 * r + 7 * k + 0)%nat at 1 by lia.
    replace (28 * r + k * 7 + 1)%nat with (28 * r + 7 * k + 1)%nat by lia.
    rewrite !Star_update_slot by (assumption || lia). reflexivity.
  - exact F2.
  - intros b z. unfold center_of. cbn [angle distance].
    rewrite cos_0, sin_0. f_equal; lra.
Qed.

(** One star built with all draws equal to [0]: angle [0], distance [10]. *)
Lemma C8_compute_center_witness :
  (vertex_at (base_idx (star_at 0 (Starfield_init 1 (fun _ => 0)))
              + 2 * vsize (Starfield_init 1 (fun _ => 0)))
             (Star_update 0 100 100 (Starfield_init 1 (fun _ => 0))),
   vertex_at (base_idx (star_at 0 (Starfield_init 1 (fun _ => 0)))
              + 2 * vsize (Starfield_init 1 (fun _ => 0)) + 1)
             (Star_update 0 100 100 (Starfield_init 1 (fun _ => 0)))) =
  center_of 100 100 (star_at 0 (Starfield_init 1 (fun _ => 0))).
Proof.
  refine (proj1 (proj2 (C8_compute_center 0 100 100
            (Starfield_init 1 (fun _ => 0)) _ _)) 2%nat _).
  - apply Starfield_init_wf.
  - rewrite (proj1 (proj2 (proj2 (proj2 (proj2 (proj2
      (Starfield_init_spec 1 (fun _ => 0)))))))). lia.
  - lia.
Defined.

(** ** Frames *)

Lemma grown_zero (s : Star) : grown 0 s = s.
Proof.
  destruct s as [b a d z]. unfold grown, grown_distance, grown_size.
  cbn [base_idx angle distance size]. f_equal; lra.
Qed.

Lemma force_star_spec (r : nat) (a d z : R) (w : World) :
  wf w -> (r < length (stars w))%nat ->
  wf (force_star r a d z w) /\
  length (stars (force_star r a d z w)) = length (stars w) /\
  star_at r (force_star r a d z w) =
    {| base_idx := base_idx (star_at r w); angle := a; distance := d;
       size := z |}.
Proof.
  intros (W1 & W2 & W3) Hr. unfold force_star.
  assert (L : length (stars (upd_star r (set_size z)
                (upd_star r (set_distance d) (upd_star r (set_angle a) w)))) =
              length (stars w))
    by (rewrite !length_stars_upd_star; reflexivity).
  split; [|split; [exact L|]].
  - unfold wf. rewrite L. split; [exact W1|]. split; [exact W2|].
    intros q Hq. rewrite !base_idx_upd_star by reflexivity.
    apply W3. exact Hq.
  - rewrite !star_at_upd_star_eq
      by (rewrite ?length_stars_upd_star; exact Hr).
    reflexivity.
Qed.

Lemma max_same (a : R) : Py.max a a = a.
Proof. unfold Py.max. destruct (Rlt_dec a a); reflexivity. Qed.

(** C9. A field of one star with centre [(50, 50)], the star forced to
    angle [PI / 2], distance [40] and size [0.1]: after one frame with
    elapsed time [0] the dynamic triple of each of the four slots of the
    star is [(50, 90, 0.1)]. *)
Theorem C9_end_to_end (rnd : nat -> R) :
  Star_iterate 0
    (update_glsl (50, 50) 0
       (force_star 0 (PI / 2) 40 0.1 (Starfield_init 1 rnd))) =
  [0; 7; 14; 21]%nat /\
  map (fun i =>
         slot_triple i
           (update_glsl (50, 50) 0
              (force_star 0 (PI / 2) 40 0.1 (Starfield_init 1 rnd))))
      (Star_iterate 0
         (update_glsl (50, 50) 0
            (force_star 0 (PI / 2) 40 0.1 (Starfield_init 1 rnd)))) =
  [(50, 90, 0.1); (50, 90, 0.1); (50, 90, 0.1); (50, 90, 0.1)].
Proof.
  pose proof (Starfield_init_wf 1 rnd) as W0.
  destruct (Starfield_init_spec 1 rnd) as (_ & _ & _ & _ & _ & L0 & S0).
  assert (H0 : (0 < length (stars (Starfield_init 1 rnd)))%nat)
    by (rewrite L0; lia).
  destruct (force_star_spec 0 (PI / 2) 40 0.1 _ W0 H0) as (W & L & S).
  set (w := force_star 0 (PI / 2) 40 0.1 (Starfield_init 1 rnd)) in *.
  assert (Hr : (0 < length (stars w))%nat) by (rewrite L; exact H0).
  assert (B : base_idx (star_at 0 w) = 0%nat)
    by (rewrite S, (S0 0%nat) by lia; reflexivity).
  assert (Hd : grown_distance 0 (star_at 0 w) <= 1.1 * Py.max 50 50).
  { rewrite S, max_same. unfold grown_distance. cbn [distance]. lra. }
  destruct (update_glsl_kept 50 50 0 w 0 W Hr Hd) as [K T].
  pose proof (update_glsl_keeps (50, 50) 0 w W) as (K1 & _ & _ & _ & _ & _ & K7 & _).
  assert (V : vsize w = 7%nat) by apply W.
  assert (I : Star_iterate 0 (update_glsl (50, 50) 0 w) = [0; 7; 14; 21]%nat).
  { unfold Star_iterate. rewrite K7, K1, B, V. apply (range3_quad 0). }
  split; [exact I|]. rewrite I. cbn [map].
  pose proof (T 0%nat) as T0. pose proof (T 1%nat) as T1.
  pose proof (T 2%nat) as T2. pose proof (T 3%nat) as T3.
  rewrite B, V in T0, T1, T2, T3. cbn [Nat.add Nat.mul] in T0, T1, T2, T3.
  rewrite T0, T1, T2, T3 by lia.
  rewrite S. unfold grown_distance, grown_size. cbn [angle distance size].
  rewrite cos_PI2, sin_PI2.
  replace (50 + 40 * (2 * 0 + 1) * 0) with 50 by lra.
  replace (50 + 40 * (2 * 0 + 1) * 1) with 90 by lra.
  replace (0.1 + 0.25 * 0) with 0.1 by lra.
  reflexivity.
Qed.



(** C1. In a frame with elapsed time [nap] the body of the loop first
    multiplies the distance of the star by [2 * nap + 1] and adds
    [0.25 * nap] to its size, on every star and before the test against the
    threshold: the star is then reset or written from that advanced state.
    A star that is not reset ends the frame with distance
    [D0 * (2 * nap + 1)] and size [S0 + 0.25 * nap]; a star is reset exactly
    when [D0 * (2 * nap + 1)] exceeds the threshold; with [nap = 0] the
    advanced distance is [D0]. *)
Theorem C1_growth_law (x0 y0 nap : R) (w : World) (r : nat) :
  wf w -> (r < length (stars w))%nat ->
  (forall m, exists w2,
     star_at r w2 =
       {| base_idx := base_idx (star_at r w);
          angle := angle (star_at r w);
          distance := distance (star_at r w) * (2 * nap + 1);
          size := size (star_at r w) + 0.25 * nap |} /\
     vertices w2 = vertices w /\
     (forall q, q <> r -> star_at q w2 = star_at q w) /\
     star_frame x0 y0 m nap r w =
       if Py.gtb (distance (star_at r w) * (2 * nap + 1)) m
       then Star_reset r w2 else Star_update r x0 y0 w2) /\
  (distance (star_at r w) * (2 * nap + 1) <= 1.1 * Py.max x0 y0 ->
     distance (star_at r (update_glsl (x0, y0) nap w)) =
       distance (star_at r w) * (2 * nap + 1) /\
     size (star_at r (update_glsl (x0, y0) nap w)) =
       size (star_at r w) + 0.25 * nap /\
     angle (star_at r (update_glsl (x0, y0) nap w)) = angle (star_at r w)) /\
  (1.1 * Py.max x0 y0 < distance (star_at r w) * (2 * nap + 1) ->
     exists k, star_at r (update_glsl (x0, y0) nap w) =
               redrawn (rand w) k (base_idx (star_at r w))) /\
  (nap = 0 ->
     distance (star_at r w) * (2 * nap + 1) = distance (star_at r w)).
Proof.
  intros W Hr. split; [|split; [|split]].
  - intros m.
    destruct (grow_lines nap r w) as (_ & _ & G3 & _ & _ & _ & G7 & G8 & _).
    cbv zeta in *.
    exists (upd_star r (fun s => set_size (size s + 0.25 * nap) s)
              (upd_star r
                 (fun s => set_distance (distance s * (2 * nap + 1)) s) w)).
    split; [exact (G8 Hr)|]. split; [exact G3|]. split; [exact G7|].
    unfold star_frame. rewrite (G8 Hr). reflexivity.
  - intros Hd.
    destruct (update_glsl_kept x0 y0 nap w r W Hr Hd) as [K _].
    rewrite K. repeat split.
  - intros Hd.
    destruct (update_glsl_reset x0 y0 nap w r W Hr Hd) as [(k & _ & K) _].
    exists k. exact K.
  - intros ->. lra.
Qed.

(** One star built with all draws equal to [0] (distance [10], size
    [0.05]), centre [(100, 100)], elapsed time one half: the star ends the
    frame at distance [10 * (2 * 0.5 + 1)]. *)
Lemma C1_growth_law_witness :
  distance (star_at 0
    (update_glsl (100, 100) 0.5 (Starfield_init 1 (fun _ => 0)))) =
  distance (star_at 0 (Starfield_init 1 (fun _ => 0))) * (2 * 0.5 + 1).
Proof.
  refine (proj1 (proj1 (proj2 (C1_growth_law 100 100 0.5
            (Starfield_init 1 (fun _ => 0)) 0 _ _)) _)).
  - apply Starfield_init_wf.
  - rewrite (proj1 (proj2 (proj2 (proj2 (proj2 (proj2
      (Starfield_init_spec 1 (fun _ => 0)))))))). lia.
  - rewrite (proj2 (proj2 (proj2 (proj2 (proj2 (proj2
      (Starfield_init_spec 1 (fun _ => 0))))))) 0%nat) by lia.
    rewrite max_same. cbn [distance redrawn]. lra.
Defined.

Lemma Star_iterate_wf (w : World) (r : nat) :
  wf w -> (r < length (stars w))%nat ->
  Star_iterate r w =
  [base_idx (star_at r w) + 0 * vsize w; base_idx (star_at r w) + 1 * vsize w;
   base_idx (star_at r w) + 2 * vsize w; base_idx (star_at r w) + 3 * vsize w]%nat.
Proof.
  intros W Hr. destruct (wf_block w r W Hr) as (B1 & B2 & _).
  unfold Star_iterate. rewrite B1, range3_quad.
  repeat f_equal; lia.
Qed.

(** C3. In a frame the threshold [1.1 * max(x0, y0)] is one value, computed
    from the centre sampled in that frame and passed to the body of the loop
    for every star; and every star whose advanced distance does not exceed
    it has the triple made of its centre and its size in each of its four
    stride-spaced slots when the frame ends. *)
Theorem C3_kept_star_written (x0 y0 nap : R) (w : World) :
  wf w ->
  update_glsl (x0, y0) nap w =
    fold_left (fun w r => star_frame x0 y0 (1.1 * Rmax x0 y0) nap r w)
              (seq 0 (length (stars w))) w /\
  forall r, (r < length (stars w))%nat ->
    distance (star_at r w) * (2 * nap + 1) <= 1.1 * Rmax x0 y0 ->
    Star_iterate r (update_glsl (x0, y0) nap w) =
      [base_idx (star_at r w); base_idx (star_at r w) + vsize w;
       base_idx (star_at r w) + 2 * vsize w;
       base_idx (star_at r w) + 3 * vsize w]%nat /\
    forall i, In i (Star_iterate r (update_glsl (x0, y0) nap w)) ->
      slot_triple i (update_glsl (x0, y0) nap w) =
      (fst (center_of x0 y0 (star_at r (update_glsl (x0, y0) nap w))),
       snd (center_of x0 y0 (star_at r (update_glsl (x0, y0) nap w))),
       size (star_at r (update_glsl (x0, y0) nap w))).
Proof.
  intros W. split.
  - unfold update_glsl. rewrite max_Rmax. reflexivity.
  - intros r Hr Hd. rewrite <- max_Rmax in Hd.
    destruct (update_glsl_kept x0 y0 nap w r W Hr Hd) as [K T].
    pose proof (update_glsl_keeps (x0, y0) nap w W)
      as (K1 & _ & _ & _ & K5 & _ & K7 & _).
    assert (I : Star_iterate r (update_glsl (x0, y0) nap w) =
      [base_idx (star_at r w) + 0 * vsize w;
       base_idx (star_at r w) + 1 * vsize w;
       base_idx (star_at r w) + 2 * vsize w;
       base_idx (star_at r w) + 3 * vsize w]%nat).
    { rewrite Star_iterate_wf.
      - rewrite K7, K1. reflexivity.
      - apply update_glsl_wf. exact W.
      - rewrite K5. exact Hr. }
    split.
    + rewrite I. repeat f_equal; lia.
    + intros i Hi. rewrite I in Hi. rewrite K.
      unfold center_of. cbn [fst snd angle distance size grown].
      cbn [In] in Hi.
      destruct Hi as [<-|[<-|[<-|[<-|[]]]]]; apply T; lia.
Qed.

(** Two stars built with all draws equal to [0], centre [(100, 100)],
    elapsed time [0]: the second slot of star [1]. *)
Lemma C3_kept_star_written_witness :
  Star_iterate 1 (update_glsl (100, 100)%R 0%R (Starfield_init 2 (fun _ => 0%R))) =
  [base_idx (star_at 1 (Starfield_init 2 (fun _ => 0%R)));
   base_idx (star_at 1 (Starfield_init 2 (fun _ => 0%R)))
     + vsize (Starfield_init 2 (fun _ => 0%R));
   base_idx (star_at 1 (Starfield_init 2 (fun _ => 0%R)))
     + 2 * vsize (Starfield_init 2 (fun _ => 0%R));
   base_idx (star_at 1 (Starfield_init 2 (fun _ => 0%R)))
     + 3 * vsize (Starfield_init 2 (fun _ => 0%R))]%nat.
Proof.
  refine (proj1 (proj2 (C3_kept_star_written 100 100 0
            (Starfield_init 2 (fun _ => 0%R)) _) 1%nat _ _)).
  - apply Starfield_init_wf.
  - rewrite (proj1 (proj2 (proj2 (proj2 (proj2 (proj2
      (Starfield_init_spec 2 (fun _ => 0%R)))))))). lia.
  - rewrite (proj2 (proj2 (proj2 (proj2 (proj2 (proj2
      (Starfield_init_spec 2 (fun _ => 0%R))))))) 1%nat) by lia.
    rewrite <- max_Rmax, max_same. cbn [distance redrawn]. lra.
Defined.

(** ** A star that is reset *)




(** * Further properties of the program *)

(** ** Worlds reached from construction *)

Lemma reached_wf (n : nat) (rnd : nat -> R) (fs : list Frame) :
  wf (run fs (Starfield_init n rnd)) /\
  length (stars (run fs (Starfield_init n rnd))) = n /\
  vsize (run fs (Starfield_init n rnd)) = 7%nat /\
  rand (run fs (Starfield_init n rnd)) = rnd.
Proof.
  pose proof (Starfield_init_wf n rnd) as W.
  destruct (Starfield_init_spec n rnd) as (V & _ & _ & Rn & _ & L & _).
  destruct (run_keeps fs _ W) as (K1 & _ & K3 & _ & K5 & _).
  split; [apply run_wf; exact W|].
  split; [congruence|]. split; congruence.
Qed.

(** X1. In every world reached from construction, [Star.iterate] gives
    four distinct offsets for a star; a whole vertex starting at each of them
    lies inside the vertex array, so the slice assignment of [Star.update]
    never falls off its end; and the vertices of two different stars never
    overlap. *)
Theorem X1_slots_in_bounds_and_disjoint
    (n : nat) (rnd : nat -> R) (fs : list Frame) (r q : nat) :
  (r < n)%nat -> (q < n)%nat ->
  length (Star_iterate r (run fs (Starfield_init n rnd))) = 4%nat /\
  NoDup (Star_iterate r (run fs (Starfield_init n rnd))) /\
  (forall i, In i (Star_iterate r (run fs (Starfield_init n rnd))) ->
     (i + vsize (run fs (Starfield_init n rnd))
      <= length (vertices (run fs (Starfield_init n rnd))))%nat) /\
  (r <> q ->
   forall i i',
     In i (Star_iterate r (run fs (Starfield_init n rnd))) ->
     In i' (Star_iterate q (run fs (Starfield_init n rnd))) ->
     (i + vsize (run fs (Starfield_init n rnd)) <= i' \/
      i' + vsize (run fs (Starfield_init n rnd)) <= i)%nat).
Proof.
  intros Hr Hq.
  destruct (reached_wf n rnd fs) as (W & L & V & _).
  set (w := run fs (Starfield_init n rnd)) in *.
  assert (Hr' : (r < length (stars w))%nat) by (rewrite L; exact Hr).
  assert (Hq' : (q < length (stars w))%nat) by (rewrite L; exact Hq).
  destruct (wf_block w r W Hr') as (_ & Br & Lr).
  destruct (wf_block w q W Hq') as (_ & Bq & _).
  rewrite (Star_iterate_wf w r W Hr'), (Star_iterate_wf w q W Hq').
  rewrite Br, Bq, V. split; [reflexivity|]. split; [|split].
  - repeat constructor; cbn [In]; intuition lia.
  - intros i Hi. cbn [In] in Hi. intuition lia.
  - intros Hne i i' Hi Hi'. cbn [In] in Hi, Hi'. intuition lia.
Qed.

(** Three stars after one frame: stars [0] and [2]. *)
Lemma X1_slots_in_bounds_and_disjoint_witness :
  length (Star_iterate 0
    (run [((50, 50), 0)] (Starfield_init 3 (fun _ => 0)))) = 4%nat.
Proof.
  refine (proj1 (X1_slots_in_bounds_and_disjoint 3 (fun _ => 0)
                   [((50, 50), 0)] 0 2 _ _)); lia.
Defined.



(** X3. No frame creates, removes or re-bases a star, changes the stride
    or rewinds the random source: after any run from construction there are
    still [n] stars, star [i] still has base index [4 * i * vsize], and the
    number of draws consumed has not decreased. *)
Theorem X3_stars_stay_in_place
    (n : nat) (rnd : nat -> R) (fs : list Frame) :
  length (stars (run fs (Starfield_init n rnd))) = n /\
  vsize (run fs (Starfield_init n rnd)) = 7%nat /\
  (3 * n <= rpos (run fs (Starfield_init n rnd)))%nat /\
  forall i, (i < n)%nat ->
    base_idx (star_at i (run fs (Starfield_init n rnd))) =
    (4 * i * vsize (run fs (Starfield_init n rnd)))%nat.
Proof.
  destruct (reached_wf n rnd fs) as (W & L & V & _).
  destruct (Starfield_init_spec n rnd) as (_ & _ & _ & _ & P & _).
  destruct (run_keeps fs _ (Starfield_init_wf n rnd))
    as (_ & _ & _ & K4 & _).
  split; [exact L|]. split; [exact V|]. split; [lia|].
  intros i Hi. apply W. rewrite L. exact Hi.
Qed.

(** Two stars, two frames: star [1]. *)
Lemma X3_stars_stay_in_place_witness :
  base_idx (star_at 1
    (run [((1, 1), 0); ((50, 50), 1)] (Starfield_init 2 (fun _ => 0)))) =
  Nat.mul (4 * 1)%nat
    (vsize (run [((1, 1), 0); ((50, 50), 1)] (Starfield_init 2 (fun _ => 0)))).
Proof.
  refine (proj2 (proj2 (proj2 (X3_stars_stay_in_place 2 (fun _ => 0)
    [((1, 1), 0); ((50, 50), 1)]))) 1%nat _).
  lia.
Defined.

(** ** What a frame does to the state of every star *)

Lemma frame_cases (x0 y0 nap : R) (w : World) (r : nat) :
  wf w -> (r < length (stars w))%nat ->
  (1.1 * Py.max x0 y0 < grown_distance nap (star_at r w) /\
   exists k, (rpos w <= k)%nat /\
     star_at r (update_glsl (x0, y0) nap w) =
     redrawn (rand w) k (base_idx (star_at r w))) \/
  (grown_distance nap (star_at r w) <= 1.1 * Py.max x0 y0 /\
   star_at r (update_glsl (x0, y0) nap w) = grown nap (star_at r w)).
Proof.
  intros W Hr.
  destruct (Rlt_le_dec (1.1 * Py.max x0 y0)
                       (grown_distance nap (star_at r w))) as [H|H].
  - left. split; [exact H|].
    apply (update_glsl_reset x0 y0 nap w r W Hr H).
  - right. split; [exact H|].
    apply (update_glsl_kept x0 y0 nap w r W Hr H).
Qed.

Lemma frame_star_ok (x0 y0 nap : R) (w : World) :
  wf w -> unit_draws (rand w) -> 0 <= nap ->
  (forall r, (r < length (stars w))%nat -> star_ok (star_at r w)) ->
  forall r, (r < length (stars w))%nat ->
    star_ok (star_at r (update_glsl (x0, y0) nap w)).
Proof.
  intros W U Hn Ok r Hr.
  destruct (frame_cases x0 y0 nap w r W Hr) as [[_ (k & _ & E)]|[_ E]];
    rewrite E.
  - destruct (redrawn_ranges (rand w) k (base_idx (star_at r w)) U)
      as (A & D & Z).
    unfold star_ok. repeat split; lra.
  - destruct (Ok r Hr) as (A & D & Z).
    unfold star_ok, grown, grown_distance, grown_size.
    cbn [angle distance size]. repeat split; try lra; nra.
Qed.

(** X4. When the draws lie in [[0, 1)] and no frame has a negative elapsed
    time, every star keeps, through any run from construction, an angle in
    [[0, 2 PI)], a distance of at least [10] and a size of at least [0.05]:
    growth never brings a star below the ranges [reset] draws from. *)
Theorem X4_state_lower_bounds
    (n : nat) (rnd : nat -> R) (fs : list Frame) (r : nat) :
  unit_draws rnd -> nonneg_naps fs -> (r < n)%nat ->
  0 <= angle (star_at r (run fs (Starfield_init n rnd))) < 2 * PI /\
  10 <= distance (star_at r (run fs (Starfield_init n rnd))) /\
  0.05 <= size (star_at r (run fs (Starfield_init n rnd))).
Proof.
  intros U Hn Hr.
  assert (G : forall fs' : list Frame, nonneg_naps fs' ->
            forall w : World,
              wf w -> unit_draws (rand w) -> length (stars w) = n ->
              (forall q, (q < n)%nat -> star_ok (star_at q w)) ->
              forall q, (q < n)%nat -> star_ok (star_at q (run fs' w))).
  { induction fs' as [|[[x y] nap] fs' IH]; intros Hn' w W Uw L Ok q Hq.
    - apply Ok. exact Hq.
    - cbn [run fold_left fst snd].
      fold (run fs' (update_glsl (x, y) nap w)).
      pose proof (Forall_inv Hn') as Hf. cbn [snd] in Hf.
      pose proof (Forall_inv_tail Hn') as Hl.
      pose proof (update_glsl_keeps (x, y) nap w W)
        as (_ & _ & K3 & _ & K5 & _).
      apply (IH Hl (update_glsl (x, y) nap w)).
      + apply update_glsl_wf. exact W.
      + rewrite K3. exact Uw.
      + rewrite K5. exact L.
      + intros p Hp. apply frame_star_ok; try assumption.
        * intros p' Hp'. apply Ok. rewrite <- L. exact Hp'.
        * rewrite L. exact Hp.
      + exact Hq. }
  destruct (Starfield_init_spec n rnd) as (_ & _ & _ & Rn & _ & L & St).
  apply (G fs Hn (Starfield_init n rnd)); try assumption.
  - apply Starfield_init_wf.
  - rewrite Rn. exact U.
  - intros q Hq. rewrite (St q Hq).
    destruct (redrawn_ranges rnd (3 * q) (28 * q) U) as (A & D & Z).
    unfold star_ok. repeat split; lra.
Qed.

(** One star, all draws one half, two frames of a sixtieth of a second. *)
Lemma X4_state_lower_bounds_witness :
  10 <= distance (star_at 0
          (run [((50, 50), 1 / 60); ((50, 50), 1 / 60)]
               (Starfield_init 1 (fun _ => 0.5)))).
Proof.
  refine (proj1 (proj2 (X4_state_lower_bounds 1 (fun _ => 0.5)
    [((50, 50), 1 / 60); ((50, 50), 1 / 60)] 0 _ _ _))).
  - intros k. lra.
  - repeat constructor; cbn [snd]; lra.
  - lia.
Defined.

(** X5. When the draws lie in [[0, 1)], no star ends a frame beyond both
    the threshold of that frame and [100]: a star that is not reset is
    within [1.1 * max(x0, y0)], and a star that is reset is below [100]. *)
Theorem X5_distance_bounded_after_frame
    (x0 y0 nap : R) (w : World) (r : nat) :
  wf w -> unit_draws (rand w) -> (r < length (stars w))%nat ->
  distance (star_at r (update_glsl (x0, y0) nap w))
    <= Rmax (1.1 * Rmax x0 y0) 100 /\
  (~ resets (x0, y0) nap r w ->
   distance (star_at r (update_glsl (x0, y0) nap w)) <= 1.1 * Rmax x0 y0) /\
  (resets (x0, y0) nap r w ->
   distance (star_at r (update_glsl (x0, y0) nap w)) < 100).
Proof.
  intros W U Hr. rewrite <- (max_Rmax x0 y0).
  unfold resets, max_distance_of. cbn [fst snd].
  destruct (frame_cases x0 y0 nap w r W Hr) as [[H (k & _ & E)]|[H E]];
    rewrite E.
  - destruct (redrawn_ranges (rand w) k (base_idx (star_at r w)) U)
      as (_ & D & _).
    pose proof (Rmax_r (1.1 * Py.max x0 y0) 100).
    repeat split; intros; try lra.
  - cbn [distance grown].
    pose proof (Rmax_l (1.1 * Py.max x0 y0) 100).
    repeat split; intros; try lra.
Qed.

(** One star at distance [10], centre [(1, 1)]: the star is reset. *)
Lemma X5_distance_bounded_after_frame_witness :
  distance (star_at 0 (update_glsl (1, 1) 0 (Starfield_init 1 (fun _ => 0))))
    <= Rmax (1.1 * Rmax 1 1) 100.
Proof.
  refine (proj1 (X5_distance_bounded_after_frame 1 1 0
            (Starfield_init 1 (fun _ => 0)) 0 _ _ _)).
  - apply Starfield_init_wf.
  - rewrite (proj1 (proj2 (proj2 (proj2 (Starfield_init_spec 1 (fun _ => 0)))))).
    intros k. lra.
  - rewrite (proj1 (proj2 (proj2 (proj2 (proj2 (proj2
      (Starfield_init_spec 1 (fun _ => 0)))))))). lia.
Defined.



(** ** The draws a frame consumes *)

Lemma resetb_resets (c : R * R) (nap : R) (r : nat) (w : World) :
  resetb c nap r w = true <-> resets c nap r w.
Proof. unfold resetb, resets. apply gtb_true. Qed.

Lemma star_frame_rpos (x0 y0 nap : R) (r : nat) (w : World) :
  (r < length (stars w))%nat ->
  (resetb (x0, y0) nap r w = true ->
   rpos (star_frame x0 y0 (1.1 * Py.max x0 y0) nap r w) = (rpos w + 3)%nat /\
   star_at r (star_frame x0 y0 (1.1 * Py.max x0 y0) nap r w) =
   redrawn (rand w) (rpos w) (base_idx (star_at r w))) /\
  (resetb (x0, y0) nap r w = false ->
   rpos (star_frame x0 y0 (1.1 * Py.max x0 y0) nap r w) = rpos w).
Proof.
  intros Hr. unfold star_frame, resetb, max_distance_of. cbn [fst snd].
  destruct (grow_lines nap r w) as (_ & _ & _ & G4 & G5 & G6 & _ & G8 & G9).
  cbv zeta in *.
  set (w2 := upd_star r (fun s => set_size (size s + 0.25 * nap) s)
        (upd_star r (fun s => set_distance (distance s * (2 * nap + 1)) s) w))
    in *.
  rewrite (G8 Hr). cbn [distance grown].
  split; intros E; rewrite E.
  - destruct (Star_reset_frame r w2) as (_ & _ & _ & _ & H5 & _).
    split; [rewrite H5, G5; reflexivity|].
    rewrite Star_reset_star by (rewrite G6; exact Hr).
    rewrite G4, G5, G9. reflexivity.
  - destruct (Star_update_frame r x0 y0 w2) as (_ & _ & _ & _ & H5).
    rewrite H5. exact G5.
Qed.

Lemma reset_count_other (c : R * R) (nap : R) (w w1 : World) (rs : list nat) :
  (forall q, In q rs -> star_at q w1 = star_at q w) ->
  reset_count c nap w1 rs = reset_count c nap w rs.
Proof.
  intros H. unfold reset_count. f_equal. apply filter_ext_in.
  intros q Hq. unfold resetb. rewrite (H q Hq). reflexivity.
Qed.

Lemma reset_count_cons (c : R * R) (nap : R) (w : World) (a : nat)
    (rs : list nat) :
  reset_count c nap w (a :: rs) =
  ((if resetb c nap a w then 1 else 0) + reset_count c nap w rs)%nat.
Proof.
  unfold reset_count. cbn [filter].
  destruct (resetb c nap a w); reflexivity.
Qed.

Lemma frames_fold_rpos (x0 y0 nap : R) (m : nat) :
  forall (a : nat) (w : World),
    wf w -> (a + m <= length (stars w))%nat ->
    rpos (fold_left
            (fun w r => star_frame x0 y0 (1.1 * Py.max x0 y0) nap r w)
            (seq a m) w) =
      (rpos w + 3 * reset_count (x0, y0) nap w (seq a m))%nat /\
    forall r, (a <= r < a + m)%nat -> resetb (x0, y0) nap r w = true ->
      star_at r (fold_left
                   (fun w r => star_frame x0 y0 (1.1 * Py.max x0 y0) nap r w)
                   (seq a m) w) =
      redrawn (rand w)
              (rpos w + 3 * reset_count (x0, y0) nap w (seq a (r - a)))
              (base_idx (star_at r w)).
Proof.
  induction m as [|m IH]; intros a w W Hm.
  - cbn [seq fold_left]. split; [unfold reset_count; simpl; lia|].
    intros r Hr. lia.
  - cbn [seq fold_left].
    set (w1 := star_frame x0 y0 (1.1 * Py.max x0 y0) nap a w).
    assert (Ha : (a < length (stars w))%nat) by lia.
    assert (K1 : keeps w w1) by (apply star_frame_keeps; assumption).
    assert (W1 : wf w1) by (apply (keeps_wf w); assumption).
    destruct K1 as (_ & _ & K3 & _ & K5 & _ & K7 & _).
    assert (O : forall q, q <> a -> star_at q w1 = star_at q w)
      by (intros q Hq; apply star_frame_other; exact Hq).
    assert (C : forall l, ~ In a l ->
              reset_count (x0, y0) nap w1 l = reset_count (x0, y0) nap w l).
    { intros l Hl. apply reset_count_other. intros q Hq. apply O.
      intros ->. contradiction. }
    destruct (IH (S a) w1 W1) as [P S1]; [rewrite K5; lia|].
    destruct (star_frame_rpos x0 y0 nap a w Ha) as [Rt Rf].
    fold w1 in Rt, Rf.
    rewrite reset_count_cons.
    rewrite C in P by (rewrite in_seq; lia).
    split.
    + rewrite P. destruct (resetb (x0, y0) nap a w).
      * rewrite (proj1 (Rt eq_refl)). lia.
      * rewrite (Rf eq_refl). lia.
    + intros r Hr Hb. destruct (Nat.eq_dec r a) as [->|Hne].
      * rewrite Nat.sub_diag. cbn [seq]. unfold reset_count at 1.
        cbn [filter length]. rewrite Nat.mul_0_r, Nat.add_0_r.
        destruct (frames_fold x0 y0 nap (seq (S a) m) (seq_NoDup _ _) w1 W1)
          as (_ & Sm & _).
        { intros q Hq. apply in_seq in Hq. rewrite K5. lia. }
        cbv zeta in Sm. destruct (Sm a) as [E _]; [rewrite in_seq; lia|].
        rewrite E. apply (Rt Hb).
      * assert (Hb1 : resetb (x0, y0) nap r w1 = true).
        { unfold resetb in *. rewrite O by exact Hne. exact Hb. }
        rewrite (S1 r) by (assumption || lia).
        rewrite K3, K7, C by (rewrite in_seq; lia).
        replace (r - a)%nat with (S (r - S a)) by lia.
        cbn [seq]. rewrite reset_count_cons.
        f_equal. destruct (resetb (x0, y0) nap a w).
        -- rewrite (proj1 (Rt eq_refl)). lia.
        -- rewrite (Rf eq_refl). lia.
Qed.

Lemma frame_rpos (x0 y0 nap : R) (w : World) :
  wf w ->
  rpos (update_glsl (x0, y0) nap w) =
    (rpos w + 3 * reset_count (x0, y0) nap w (seq 0 (length (stars w))))%nat.
Proof.
  intros W. unfold update_glsl.
  apply (frames_fold_rpos x0 y0 nap (length (stars w)) 0 w W). lia.
Qed.

(** X6. A frame consumes exactly three draws for each star it resets and
    none for the others.  The stars are served in index order: a star that
    is reset receives the three draws that follow those of the stars of
    smaller index reset in the same frame. *)
Theorem X6_draws_of_a_frame (x0 y0 nap : R) (w : World) :
  wf w ->
  rpos (update_glsl (x0, y0) nap w) =
    (rpos w
     + 3 * reset_count (x0, y0) nap w (seq 0 (length (stars w))))%nat /\
  forall r, (r < length (stars w))%nat -> resets (x0, y0) nap r w ->
    star_at r (update_glsl (x0, y0) nap w) =
    redrawn (rand w)
            (rpos w + 3 * reset_count (x0, y0) nap w (seq 0 r))
            (base_idx (star_at r w)).
Proof.
  intros W. unfold update_glsl.
  destruct (frames_fold_rpos x0 y0 nap (length (stars w)) 0 w W) as [P S1];
    [lia|].
  split; [exact P|].
  intros r Hr Hres. rewrite (S1 r).
  - rewrite Nat.sub_0_r. reflexivity.
  - lia.
  - apply resetb_resets. exact Hres.
Qed.

(** Two stars at distance [10], centre [(1, 1)]: both are reset; the second
    one gets the draws that follow the three of the first. *)
Lemma X6_draws_of_a_frame_witness :
  rpos (update_glsl (1, 1) 0 (Starfield_init 2 (fun _ => 0))) =
  (rpos (Starfield_init 2 (fun _ => 0%R))
   + 3 * reset_count (1, 1)%R 0%R (Starfield_init 2 (fun _ => 0%R))
           (seq 0 (length (stars (Starfield_init 2 (fun _ => 0%R))))))%nat.
Proof.
  refine (proj1 (X6_draws_of_a_frame 1 1 0 (Starfield_init 2 (fun _ => 0)) _)).
  apply Starfield_init_wf.
Defined.

(** ** A frame that resets nothing and lets no time pass *)

Lemma world_ext (w w' : World) :
  vsize w = vsize w' -> indices w = indices w' -> vertices w = vertices w' ->
  stars w = stars w' -> rand w = rand w' -> rpos w = rpos w' -> w = w'.
Proof.
  destruct w, w'. cbn. intros. subst. reflexivity.
Qed.

Lemma vertex_position (n j : nat) :
  (j < 28 * n)%nat ->
  exists r k o, (r < n)%nat /\ (k < 4)%nat /\ (o < 7)%nat /\
                j = (28 * r + 7 * k + o)%nat.
Proof.
  intros Hj.
  pose proof (Nat.div_mod_eq j 28) as D1.
  pose proof (Nat.mod_upper_bound j 28) as M1.
  pose proof (Nat.div_mod_eq (j mod 28) 7) as D2.
  pose proof (Nat.mod_upper_bound (j mod 28) 7) as M2.
  exists (j / 28)%nat, ((j mod 28) / 7)%nat, ((j mod 28) mod 7)%nat.
  repeat split; lia.
Qed.

Lemma reset_count_none (c : R * R) (nap : R) (w : World) (rs : list nat) :
  (forall q, In q rs -> ~ resets c nap q w) ->
  reset_count c nap w rs = 0%nat.
Proof.
  intros H. unfold reset_count.
  induction rs as [|a rs IH]; [reflexivity|].
  cbn [filter]. destruct (resetb c nap a w) eqn:E.
  - exfalso. apply (H a); [left; reflexivity|].
    apply resetb_resets. exact E.
  - apply IH. intros q Hq. apply H. right. exact Hq.
Qed.

(** X8. A frame with elapsed time [0] in which no star is reset changes no
    star and consumes no draw, and running it a second time with the same
    centre changes nothing at all: the vertex array it leaves is a function
    of the stars and of the centre alone. *)
Theorem X8_still_frame_idempotent (x0 y0 : R) (w : World) :
  wf w ->
  (forall r, (r < length (stars w))%nat -> ~ resets (x0, y0) 0 r w) ->
  stars (update_glsl (x0, y0) 0 w) = stars w /\
  rpos (update_glsl (x0, y0) 0 w) = rpos w /\
  update_glsl (x0, y0) 0 (update_glsl (x0, y0) 0 w) =
  update_glsl (x0, y0) 0 w.
Proof.
  intros W N.
  assert (Step : forall v : World,
            wf v ->
            (forall r, (r < length (stars v))%nat -> ~ resets (x0, y0) 0 r v) ->
            stars (update_glsl (x0, y0) 0 v) = stars v /\
            rpos (update_glsl (x0, y0) 0 v) = rpos v /\
            forall r k o, (r < length (stars v))%nat -> (k < 4)%nat ->
              (o < 7)%nat ->
              vertex_at (28 * r + 7 * k + o) (update_glsl (x0, y0) 0 v) =
              if (o <? 3)%nat
              then nth o [x0 + distance (star_at r v) * cos (angle (star_at r v));
                          y0 + distance (star_at r v) * sin (angle (star_at r v));
                          size (star_at r v)] 0
              else vertex_at (28 * r + 7 * k + o) v).
  { intros v Wv Nv.
    pose proof (update_glsl_keeps (x0, y0) 0 v Wv) as (_ & _ & _ & _ & K5 & _).
    assert (Kd : forall r, (r < length (stars v))%nat ->
              grown_distance 0 (star_at r v) <= 1.1 * Py.max x0 y0).
    { intros r Hr. specialize (Nv r Hr).
      unfold resets, max_distance_of in Nv. cbn [fst snd] in Nv. lra. }
    split; [|split].
    - apply (nth_ext _ _ (Star_defaults 0) (Star_defaults 0)); [exact K5|].
      intros r Hr. rewrite K5 in Hr.
      change (star_at r (update_glsl (x0, y0) 0 v) = star_at r v).
      rewrite (proj1 (update_glsl_kept x0 y0 0 v r Wv Hr (Kd r Hr))).
      apply grown_zero.
    - rewrite (frame_rpos x0 y0 0 v Wv).
      rewrite reset_count_none; [lia|].
      intros q Hq. apply in_seq in Hq. apply Nv. lia.
    - intros r k o Hr Hk Ho.
      destruct (update_glsl_post x0 y0 0 v r Wv Hr) as [_ P].
      cbv zeta in P. destruct (P (Kd r Hr)) as [_ Q].
      rewrite (Q k o Hk Ho).
      assert (G : grown_distance 0 (star_at r v) = distance (star_at r v))
        by (unfold grown_distance; lra).
      assert (Z : grown_size 0 (star_at r v) = size (star_at r v))
        by (unfold grown_size; lra).
      rewrite G, Z. reflexivity. }
  destruct (Step w W N) as (S1 & P1 & V1).
  split; [exact S1|]. split; [exact P1|].
  set (w1 := update_glsl (x0, y0) 0 w) in *.
  assert (W1 : wf w1) by (apply update_glsl_wf; exact W).
  assert (N1 : forall r, (r < length (stars w1))%nat ->
                         ~ resets (x0, y0) 0 r w1).
  { intros r Hr. unfold resets, star_at. rewrite S1.
    apply N. rewrite <- S1. exact Hr. }
  destruct (Step w1 W1 N1) as (S2 & P2 & V2).
  pose proof (update_glsl_keeps (x0, y0) 0 w1 W1)
    as (K1 & K2 & K3 & _ & _ & K6 & _).
  apply world_ext; try assumption.
  apply (nth_ext _ _ 0 0); [exact K6|].
  intros j Hj. rewrite K6 in Hj.
  destruct W1 as (Wv & Wl & _). rewrite Wl, Wv in Hj.
  destruct (vertex_position (length (stars w1)) j) as (r & k & o & Hr & Hk & Ho & ->);
    [lia|].
  change (vertex_at (28 * r + 7 * k + o) (update_glsl (x0, y0) 0 w1) =
          vertex_at (28 * r + 7 * k + o) w1).
  rewrite (V2 r k o Hr Hk Ho).
  destruct (o <? 3)%nat eqn:E; [|reflexivity].
  assert (Hr0 : (r < length (stars w))%nat) by (rewrite <- S1; exact Hr).
  rewrite (V1 r k o Hr0 Hk Ho), E.
  unfold star_at. rewrite S1. reflexivity.
Qed.

(** One star at distance [10], centre [(100, 100)]: the threshold is
    [110]. *)
Lemma X8_still_frame_idempotent_witness :
  update_glsl (100, 100) 0
    (update_glsl (100, 100) 0 (Starfield_init 1 (fun _ => 0))) =
  update_glsl (100, 100) 0 (Starfield_init 1 (fun _ => 0)).
Proof.
  refine (proj2 (proj2 (X8_still_frame_idempotent 100 100
            (Starfield_init 1 (fun _ => 0)) _ _))).
  - apply Starfield_init_wf.
  - intros r Hr.
    rewrite (proj1 (proj2 (proj2 (proj2 (proj2 (proj2
      (Starfield_init_spec 1 (fun _ => 0)))))))) in Hr.
    unfold resets, max_distance_of, grown_distance. cbn [fst snd].
    rewrite (proj2 (proj2 (proj2 (proj2 (proj2 (proj2
      (Starfield_init_spec 1 (fun _ => 0))))))) r Hr).
    rewrite max_same. cbn [distance redrawn]. lra.
Defined.

(** ** What [Star.update] and the mesh never do *)

(** X9. On a world with the layout of construction, [Star.update] keeps
    the length of the vertex array and writes nowhere but in the three
    leading scalars of the four vertices of its own star: every position
    whose value differs afterwards lies in one of those four triples. *)
Theorem X9_update_writes_own_triples_only
    (r : nat) (x0 y0 : R) (w : World) :
  wf w -> (r < length (stars w))%nat ->
  length (vertices (Star_update r x0 y0 w)) = length (vertices w) /\
  forall j,
    vertex_at j (Star_update r x0 y0 w) <> vertex_at j w ->
    exists k, (k < 4)%nat /\
      (base_idx (star_at r w) + k * vsize w <= j
       < base_idx (star_at r w) + k * vsize w + 3)%nat.
Proof.
  intros W Hr. destruct (wf_block w r W Hr) as (B1 & B2 & B3).
  destruct (Star_update_vertices r x0 y0 w B1 B2 B3) as [L V].
  split; [exact L|].
  intros j Hj. rewrite V in Hj. rewrite B1, B2.
  destruct ((28 * r <=? j) && (j <? 28 * r + 3))%nat%bool eqn:E0.
  { exists 0%nat. apply andb_prop in E0. destruct E0 as [E1 E2].
    apply Nat.leb_le in E1. apply Nat.ltb_lt in E2. lia. }
  destruct ((28 * r + 7 <=? j) && (j <? 28 * r + 10))%nat%bool eqn:E1.
  { exists 1%nat. apply andb_prop in E1. destruct E1 as [E1 E2].
    apply Nat.leb_le in E1. apply Nat.ltb_lt in E2. lia. }
  destruct ((28 * r + 14 <=? j) && (j <? 28 * r + 17))%nat%bool eqn:E2.
  { exists 2%nat. apply andb_prop in E2. destruct E2 as [E2 E3].
    apply Nat.leb_le in E2. apply Nat.ltb_lt in E3. lia. }
  destruct ((28 * r + 21 <=? j) && (j <? 28 * r + 24))%nat%bool eqn:E3.
  { exists 3%nat. apply andb_prop in E3. destruct E3 as [E3 E4].
    apply Nat.leb_le in E3. apply Nat.ltb_lt in E4. lia. }
  cbn [orb] in Hj. exfalso. apply Hj. reflexivity.
Qed.

(** Two stars built with all draws equal to [0]: [update] on star [1]. *)
Lemma X9_update_writes_own_triples_only_witness :
  length (vertices (Star_update 1 5 5 (Starfield_init 2 (fun _ => 0)))) =
  length (vertices (Starfield_init 2 (fun _ => 0))).
Proof.
  refine (proj1 (X9_update_writes_own_triples_only 1 5 5
            (Starfield_init 2 (fun _ => 0)) _ _)).
  - apply Starfield_init_wf.
  - rewrite (proj1 (proj2 (proj2 (proj2 (proj2 (proj2
      (Starfield_init_spec 2 (fun _ => 0)))))))). lia.
Defined.

(** X10. The two arrays handed to [Mesh] fit together after any run from
    construction: every entry of the index array names a vertex that lies
    whole inside the vertex array, and the vertex array holds exactly four
    vertices for each of the [n] quads the index array describes. *)
Theorem X10_mesh_arrays_consistent
    (n : nat) (rnd : nat -> R) (fs : list Frame) :
  Forall (fun v =>
            ((v + 1) * vsize (run fs (Starfield_init n rnd))
             <= length (vertices (run fs (Starfield_init n rnd))))%nat)
         (indices (run fs (Starfield_init n rnd))) /\
  (7 * length (vertices (run fs (Starfield_init n rnd))) =
   4 * vsize (run fs (Starfield_init n rnd))
     * length (indices (run fs (Starfield_init n rnd))))%nat.
Proof.
  pose proof (Starfield_init_wf n rnd) as W.
  destruct (Starfield_init_spec n rnd) as (V & I & E & _).
  destruct (run_keeps fs _ W) as (K1 & K2 & _ & _ & _ & K6 & _).
  rewrite K1, K2, K6, V, I, E, length_flat_quads, length_flat_quad_indices.
  rewrite length_map, length_seq. split; [|lia].
  eapply Forall_impl; [|apply flat_quad_indices_bound].
  intros v Hv. cbn beta in *. lia.
Qed.

(** ** A centre too close to the origin *)

Lemma reset_count_all (c : R * R) (nap : R) (w : World) (rs : list nat) :
  (forall q, In q rs -> resets c nap q w) ->
  reset_count c nap w rs = length rs.
Proof.
  intros H. unfold reset_count.
  induction rs as [|a rs IH]; [reflexivity|].
  cbn [filter].
  assert (E : resetb c nap a w = true)
    by (apply resetb_resets; apply H; left; reflexivity).
  rewrite E. cbn [length]. f_equal.
  apply IH. intros q Hq. apply H. right. exact Hq.
Qed.

(** X11. When the threshold [1.1 * max(x0, y0)] of a frame is below [10]
    (a widget whose centre is within nine units of the origin), the elapsed
    time is not negative and every star is at distance [10] or more, as
    every star is from construction on, the frame resets every star: it
    consumes three draws for each of them and leaves the whole vertex array
    as it was, so nothing moves on the canvas. *)
Theorem X11_small_widget_freezes (x0 y0 nap : R) (w : World) :
  wf w -> 0 <= nap -> 1.1 * Rmax x0 y0 < 10 ->
  (forall r, (r < length (stars w))%nat -> 10 <= distance (star_at r w)) ->
  vertices (update_glsl (x0, y0) nap w) = vertices w /\
  rpos (update_glsl (x0, y0) nap w) = (rpos w + 3 * length (stars w))%nat.
Proof.
  intros W Hn Hm Hd. rewrite <- (max_Rmax x0 y0) in Hm.
  assert (A : forall r, (r < length (stars w))%nat -> resets (x0, y0) nap r w).
  { intros r Hr. specialize (Hd r Hr).
    unfold resets, max_distance_of, grown_distance. cbn [fst snd]. nra. }
  pose proof (update_glsl_keeps (x0, y0) nap w W)
    as (_ & _ & _ & _ & _ & K6 & _).
  split.
  - apply (nth_ext _ _ 0 0); [exact K6|].
    intros j Hj. rewrite K6 in Hj.
    pose proof W as (Wv & Wl & _). rewrite Wl, Wv in Hj.
    destruct (vertex_position (length (stars w)) j)
      as (r & k & o & Hr & Hk & Ho & ->); [lia|].
    destruct (update_glsl_post x0 y0 nap w r W Hr) as [P _].
    cbv zeta in P. apply (P (A r Hr)). lia.
  - rewrite (frame_rpos x0 y0 nap w W).
    rewrite reset_count_all, length_seq; [reflexivity|].
    intros q Hq. apply in_seq in Hq. apply A. lia.
Qed.

(** Two stars at distance [10], centre [(1, 1)], a sixtieth of a second:
    the threshold is [1.1]. *)
Lemma X11_small_widget_freezes_witness :
  vertices (update_glsl (1, 1) (1 / 60) (Starfield_init 2 (fun _ => 0))) =
  vertices (Starfield_init 2 (fun _ => 0)).
Proof.
  refine (proj1 (X11_small_widget_freezes 1 1 (1 / 60)
            (Starfield_init 2 (fun _ => 0)) _ _ _ _)).
  - apply Starfield_init_wf.
  - lra.
  - unfold Rmax. destruct (Rle_dec 1 1); lra.
  - intros r Hr.
    rewrite (proj1 (proj2 (proj2 (proj2 (proj2 (proj2
      (Starfield_init_spec 2 (fun _ => 0)))))))) in Hr.
    rewrite (proj2 (proj2 (proj2 (proj2 (proj2 (proj2
      (Starfield_init_spec 2 (fun _ => 0))))))) r Hr).
    cbn [distance redrawn]. lra.
Defined.
